(** * Allocator micro-benchmark (examples/07-custom-allocator/src/benchmark.cpp)

    A shallow embedding of the benchmark harness and of the raw-allocation
    demo of [main.cpp], together with the properties its specification
    states about them.

    Modelling conventions.
    - [size_t] is the 64-bit unsigned type: values are [Z] in [0, 2^64) and
      every arithmetic operation of the source is followed by [wrap64].
    - [double] is IEEE 754 binary64 with round-to-nearest-even, taken from the
      Standard Library's executable specification [SpecFloat]
      ([prec = 53], [emax = 1024]).
    - [malloc], [free] and [realloc] are calls into an allocator given as an
      interface ([Allocator]); every call is recorded, with its result, in a
      chronological trace.  A null pointer is the address [0].
    - [std::chrono::high_resolution_clock::now()] reads the next value of a
      clock oracle (a function from the number of reads made so far to a tick
      count).
    - What the C++ library leaves to the implementation is a field of
      [platform]: the clock period and the [max_size()] of the three vector
      types.  Storage of the standard containers themselves is assumed to be
      available ([operator new] does not fail); their [std::length_error]
      is modelled.
    - Text written to [std::cout] is kept as the values that are printed, not
      as formatted characters. *)

From Stdlib Require Import ZArith List Bool String Ascii Lia Permutation.
From Stdlib Require Import SpecFloat DecimalString.
Import ListNotations.
Local Open Scope Z_scope.

(** ** Machine integers *)

Definition SIZE_MAX : Z := 2 ^ 64 - 1.

Definition wrap64 (z : Z) : Z := z mod 2 ^ 64.

Definition is_size_t (z : Z) : Prop := 0 <= z <= SIZE_MAX.

(** [static_cast<int>(i)] for a [size_t] [i]: reduction modulo [2^32] into
    the signed range. *)
Definition to_int32 (z : Z) : Z := (z + 2 ^ 31) mod 2 ^ 32 - 2 ^ 31.

(** ** IEEE 754 binary64 *)

Module Double.

Definition double : Type := spec_float.

Definition prec : Z := 53.
Definition emax : Z := 1024.

(** Conversion of an integer to [double] (round to nearest, ties to even). *)
Definition of_Z (z : Z) : double := binary_normalize prec emax z 0 false.

Definition add : double -> double -> double := SFadd prec emax.
Definition mul : double -> double -> double := SFmul prec emax.
Definition div : double -> double -> double := SFdiv prec emax.

Definition eqb : double -> double -> bool := SFeqb.
Definition leb : double -> double -> bool := SFleb.

(** The literals [0.0] and [1000.0]. *)
Definition zero : double := S754_zero false.
Definition thousand : double := Eval cbv in of_Z 1000.

Definition pos_infinity : double := S754_infinity false.
Definition nan : double := S754_nan.

(** Neither a NaN nor negative (a zero of either sign counts as
    non-negative, as [x >= 0] does in C++). *)
Definition is_nonneg (x : double) : bool := leb zero x.

End Double.

(** ** BenchmarkResult *)

Record BenchmarkResult : Type := mkResult {
  name : string;
  duration_ms : Double.double;
  operations : Z
}.

(** [(operations / duration_ms) * 1000.0]: [operations] is converted to
    [double] by the usual arithmetic conversions. *)
Definition ops_per_second (r : BenchmarkResult) : Double.double :=
  Double.mul (Double.div (Double.of_Z (operations r)) (duration_ms r))
             Double.thousand.

(** ** Platform constants *)

Record platform : Type := mkPlatform {
  (** ticks of [high_resolution_clock] per microsecond *)
  ticks_per_us : Z;
  (** [std::vector<void*>::max_size()] *)
  max_size_ptr : Z;
  (** [std::vector<std::string>::max_size()] *)
  max_size_string : Z;
  (** [std::vector<int>::max_size()] *)
  max_size_int : Z
}.

(** What every implementation guarantees: the clock ticks at least once per
    microsecond, and [max_size()] elements fit in the address space
    ([sizeof(void* )] is 8, [sizeof(std::string)] is at least 24,
    [sizeof(int)] is 4). *)
Definition platform_okb (P : platform) : bool :=
  (0 <? ticks_per_us P) &&
  (0 <=? max_size_ptr P) && (max_size_ptr P * 8 <=? SIZE_MAX) &&
  (0 <=? max_size_string P) && (max_size_string P * 24 <=? SIZE_MAX) &&
  (0 <=? max_size_int P) && (max_size_int P * 4 <=? SIZE_MAX).

Definition platform_ok (P : platform) : Prop := platform_okb P = true.

(** libstdc++ on an LP64 target: nanosecond clock,
    [max_size() = PTRDIFF_MAX / sizeof(T)]. *)
Definition libstdcxx_lp64 : platform :=
  {| ticks_per_us := 1000;
     max_size_ptr := (2 ^ 63 - 1) / 8;
     max_size_string := (2 ^ 63 - 1) / 32;
     max_size_int := (2 ^ 63 - 1) / 4 |}.

(** ** The allocator capability and the observable trace *)

(** Addresses; [null] is the null pointer. *)
Definition ptr : Type := Z.
Definition null : ptr := 0.

(** The three entry points of the C allocator, as state transformers on an
    allocator state [H].  A failed request returns [null]. *)
Class Allocator (H : Type) : Type := {
  alloc_malloc : Z -> H -> ptr * H;
  alloc_free : ptr -> H -> H;
  alloc_realloc : ptr -> Z -> H -> ptr * H
}.

(** One recorded allocator call, with the value it returned. *)
Inductive event : Type :=
| EvMalloc (size : Z) (ret : ptr)
| EvFree (p : ptr)
| EvRealloc (p : ptr) (size : Z) (ret : ptr).

(** The state a workload runs in. *)
Record world (H : Type) : Type := mkWorld {
  heap : H;
  trace : list event;
  clock : nat -> Z;
  reads : nat
}.
Arguments mkWorld {H} _ _ _ _.
Arguments heap {H} _.
Arguments trace {H} _.
Arguments clock {H} _.
Arguments reads {H} _.

(** A clock that never runs backwards. *)
Definition monotonic (c : nat -> Z) : Prop := forall i, c i <= c (S i).

(** ** Computations: state passing with C++ exceptions *)

Inductive exception : Type :=
| length_error.

Inductive outcome (X : Type) : Type :=
| Returned (x : X)
| Thrown (e : exception).
Arguments Returned {X} _.
Arguments Thrown {X} _.

Definition M (H A : Type) : Type := world H -> outcome (A * world H).

Definition ret {H A} (a : A) : M H A := fun w => Returned (a, w).

Definition bind {H A B} (m : M H A) (k : A -> M H B) : M H B :=
  fun w => match m w with
           | Returned (a, w') => k a w'
           | Thrown e => Thrown e
           end.

Definition throw {H A} (e : exception) : M H A := fun _ => Thrown e.

Declare Scope bench_scope.
Delimit Scope bench_scope with bench.
Notation "x <- m ;; k" := (bind m (fun x => k))
  (at level 100, m at next level, right associativity) : bench_scope.
Notation "m ;;; k" := (bind m (fun _ => k))
  (at level 100, right associativity) : bench_scope.
Local Open Scope bench_scope.

(** [for (size_t i = lo; i < hi; ++i) body], threading the variables the body
    updates as [s]. *)
Fixpoint for_from {H S} (n : nat) (i : Z) (body : Z -> S -> M H S) (s : S)
  : M H S :=
  match n with
  | O => ret s
  | Datatypes.S n' => s' <- body i s ;; for_from n' (i + 1) body s'
  end.

Definition for_loop {H S} (lo hi : Z) (body : Z -> S -> M H S) (s : S)
  : M H S :=
  for_from (Z.to_nat (hi - lo)) lo body s.

(** [for (auto x : xs) body] for a body that only has effects. *)
Fixpoint for_each {H A} (xs : list A) (body : A -> M H unit) : M H unit :=
  match xs with
  | [] => ret tt
  | x :: xs' => body x ;;; for_each xs' body
  end.

(** ** Allocator calls *)

Section Calls.
Context {H : Type} `{Allocator H}.

Definition log (e : event) (w : world H) (h : H) : world H :=
  mkWorld h (trace w ++ [e]) (clock w) (reads w).

Definition malloc (size : Z) : M H ptr :=
  fun w => let '(p, h) := alloc_malloc size (heap w) in
           Returned (p, log (EvMalloc size p) w h).

Definition free (p : ptr) : M H unit :=
  fun w => Returned (tt, log (EvFree p) w (alloc_free p (heap w))).

Definition realloc (p : ptr) (size : Z) : M H ptr :=
  fun w => let '(q, h) := alloc_realloc p size (heap w) in
           Returned (q, log (EvRealloc p size q) w h).

(** [high_resolution_clock::now()] *)
Definition now : M H Z :=
  fun w => Returned (clock w (reads w),
                     mkWorld (heap w) (trace w) (clock w) (Datatypes.S (reads w))).

End Calls.

(** ** std::vector *)

(** A vector is the list of its elements; [max] is its [max_size()].
    [reserve] changes the capacity only, which nothing here observes, but
    throws when asked for more than [max_size()]. *)
Definition reserve {H A} (max : Z) (v : list A) (n : Z) : M H (list A) :=
  if max <? n then throw length_error else ret v.

(** [push_back] throws when the vector cannot grow any more. *)
Definition push_back {H A} (max : Z) (v : list A) (x : A) : M H (list A) :=
  if max <=? Z.of_nat (List.length v) then throw length_error else ret (v ++ [x]).

(** ** Timer *)

Record Timer : Type := mkTimer { start_ : Z }.

Section Stopwatch.
Context {H : Type} `{Allocator H}.
Variable P : platform.

Definition Timer_new : M H Timer :=
  t <- now ;; ret (mkTimer t).

(** [duration_cast<microseconds>] truncates towards zero. *)
Definition duration_cast_us (ticks : Z) : Z := Z.quot ticks (ticks_per_us P).

(** [duration.count() / 1000.0] *)
Definition ms_of_us (us : Z) : Double.double :=
  Double.div (Double.of_Z us) Double.thousand.

Definition elapsed_ms (t : Timer) : M H Double.double :=
  end_ <- now ;;
  let duration := duration_cast_us (end_ - start_ t) in
  ret (ms_of_us duration).

End Stopwatch.

(** ** The workloads *)

(** [std::to_string(i)] for an unsigned [i]. *)
Definition to_string (i : Z) : string :=
  NilZero.string_of_uint (N.to_uint (Z.to_N i)).

(** The table [sizes] of [benchmark_mixed_sizes]. *)
Definition sizes : list Z := [16; 32; 64; 128; 256; 512; 1024; 2048; 4096; 8192].

Section Workloads.
Context {H : Type} `{Allocator H}.
Variable P : platform.

(** The allocation loop shared by the four vector-of-pointers workloads:
    [for (i = 0; i < count; ++i) ptrs.push_back(malloc(size_of i))]. *)
Definition allocate_all (size_of : Z -> Z) (count : Z) (ptrs : list ptr)
  : M H (list ptr) :=
  for_loop 0 count
    (fun i ptrs => p <- malloc (size_of i) ;; push_back (max_size_ptr P) ptrs p)
    ptrs.

Definition benchmark_small_allocations (count : Z) : M H BenchmarkResult :=
  timer <- Timer_new ;;
  ptrs <- reserve (max_size_ptr P) [] count ;;
  ptrs <- allocate_all (fun _ => 64) count ptrs ;;
  for_each ptrs free ;;;
  ms <- elapsed_ms P timer ;;
  ret (mkResult "Small allocations (64 bytes)" ms (wrap64 (count * 2))).

Definition benchmark_medium_allocations (count : Z) : M H BenchmarkResult :=
  timer <- Timer_new ;;
  ptrs <- reserve (max_size_ptr P) [] count ;;
  ptrs <- allocate_all (fun _ => 1024) count ptrs ;;
  for_each ptrs free ;;;
  ms <- elapsed_ms P timer ;;
  ret (mkResult "Medium allocations (1KB)" ms (wrap64 (count * 2))).

Definition benchmark_large_allocations (count : Z) : M H BenchmarkResult :=
  timer <- Timer_new ;;
  ptrs <- reserve (max_size_ptr P) [] count ;;
  ptrs <- allocate_all (fun _ => 1024 * 1024) count ptrs ;;
  for_each ptrs free ;;;
  ms <- elapsed_ms P timer ;;
  ret (mkResult "Large allocations (1MB)" ms (wrap64 (count * 2))).

Definition benchmark_mixed_sizes (count : Z) : M H BenchmarkResult :=
  timer <- Timer_new ;;
  ptrs <- reserve (max_size_ptr P) [] count ;;
  ptrs <- allocate_all (fun i => nth (Z.to_nat (i mod 10)) sizes 0) count ptrs ;;
  for_each (rev ptrs) free ;;;
  ms <- elapsed_ms P timer ;;
  ret (mkResult "Mixed size allocations" ms (wrap64 (count * 2))).

Definition benchmark_reallocations (count : Z) : M H BenchmarkResult :=
  timer <- Timer_new ;;
  ptr0 <- malloc 64 ;;
  ptr1 <- for_loop 1 count
            (fun i p => realloc p (wrap64 (64 * wrap64 (i + 1)))) ptr0 ;;
  free ptr1 ;;;
  ms <- elapsed_ms P timer ;;
  ret (mkResult "Reallocations" ms count).

(** [str.reserve] changes the capacity of the string only. *)
Definition benchmark_string_operations (count : Z) : M H BenchmarkResult :=
  timer <- Timer_new ;;
  strings <- reserve (max_size_string P) [] count ;;
  strings <- for_loop 0 count
               (fun i strings =>
                  push_back (max_size_string P) strings
                    ("This is a test string number " ++ to_string i)%string)
               strings ;;
  let strings := map (fun str => (str ++ " - modified")%string) strings in
  let strings := @nil string in
  ms <- elapsed_ms P timer ;;
  ret (mkResult "String operations" ms (wrap64 (count * 3))).

Definition benchmark_container_growth (count : Z) : M H BenchmarkResult :=
  timer <- Timer_new ;;
  vec <- for_loop 0 count
           (fun i vec => push_back (max_size_int P) vec (to_int32 i)) [] ;;
  ms <- elapsed_ms P timer ;;
  ret (mkResult "Vector growth" ms count).

(** ** Reporting *)

(** The three values [print_result] writes for one result. *)
Record row : Type := mkRow {
  row_name : string;
  row_duration_ms : Double.double;
  row_ops_per_second : Double.double
}.

Definition print_result (result : BenchmarkResult) : row :=
  mkRow (name result) (duration_ms result) (ops_per_second result).

(** One step of the loop that accumulates [total_time] and [total_ops]. *)
Definition accumulate (acc : Double.double * Z) (result : BenchmarkResult)
  : Double.double * Z :=
  (Double.add (fst acc) (duration_ms result),
   wrap64 (snd acc + operations result)).

Definition totals (results : list BenchmarkResult) : Double.double * Z :=
  fold_left accumulate results (Double.zero, 0).

(** [(total_ops / total_time) * 1000.0] *)
Definition average (total_ops : Z) (total_time : Double.double)
  : Double.double :=
  Double.mul (Double.div (Double.of_Z total_ops) total_time) Double.thousand.

(** What [run_benchmark] leaves behind: its local vector [results] and the
    values it prints. *)
Record report : Type := mkReport {
  announced_iterations : Z;
  results : list BenchmarkResult;
  rows : list row;
  total_time : Double.double;
  total_ops : Z;
  printed_average : Double.double
}.

(** The body of [run_benchmark] for a value of its constant [iterations]. *)
Definition run_benchmark_with (iterations : Z) : M H report :=
  let results := [] in
  r <- benchmark_small_allocations iterations ;;
  let results := results ++ [r] in
  r <- benchmark_medium_allocations iterations ;;
  let results := results ++ [r] in
  r <- benchmark_large_allocations (iterations / 10) ;;
  let results := results ++ [r] in
  r <- benchmark_mixed_sizes iterations ;;
  let results := results ++ [r] in
  r <- benchmark_reallocations iterations ;;
  let results := results ++ [r] in
  r <- benchmark_string_operations iterations ;;
  let results := results ++ [r] in
  r <- benchmark_container_growth iterations ;;
  let results := results ++ [r] in
  let '(total_time, total_ops) := totals results in
  ret (mkReport iterations results (map print_result results)
                total_time total_ops (average total_ops total_time)).

Definition run_benchmark : M H report := run_benchmark_with 10000.

(** [demonstrate_raw_allocation] of main.cpp: the one place where the result
    of [malloc] is tested before it is stored.  Returns the two block counts
    it prints ([ptrs.size()]) . *)
Definition demonstrate_raw_allocation : M H Z :=
  let count := 100 in
  let size := 1024 in
  ptrs <- reserve (max_size_ptr P) [] count ;;
  ptrs <- for_loop 0 count
            (fun i ptrs =>
               p <- malloc size ;;
               if p =? null then ret ptrs
               else push_back (max_size_ptr P) ptrs p)
            ptrs ;;
  let allocated := Z.of_nat (List.length ptrs) in
  for_each ptrs free ;;;
  ret allocated.

End Workloads.

(** ** Vocabulary of the specification *)

(** A float that is not a NaN and carries the sign [sx]. *)
Definition has_sign (sx : bool) (x : spec_float) : Prop :=
  match x with
  | S754_zero s | S754_infinity s | S754_finite s _ _ => s = sx
  | S754_nan => False
  end.

(** The events of an allocation pass whose [i]-th request (counting from
    [i0]) asks for [size_of i] bytes and is answered by the [i]-th pointer of
    [ps]. *)
Fixpoint malloc_events (size_of : Z -> Z) (i0 : Z) (ps : list ptr) : list event :=
  match ps with
  | [] => []
  | p :: ps' => EvMalloc (size_of i0) p :: malloc_events size_of (i0 + 1) ps'
  end.

(** The events of the resize steps [lo], [lo + 1], ... of the reallocation
    workload, starting from the block [p]; [qs] are the pointers returned. *)
Fixpoint realloc_events (lo : Z) (p : ptr) (qs : list ptr) : list event :=
  match qs with
  | [] => []
  | q :: qs' =>
      EvRealloc p (wrap64 (64 * wrap64 (lo + 1))) q :: realloc_events (lo + 1) q qs'
  end.

(** The two sums of the reporter, over the reals of the machine: durations
    added left to right in [double], operations added as integers. *)
Definition sum_durations (rs : list BenchmarkResult) : Double.double :=
  fold_left Double.add (map duration_ms rs) Double.zero.

Definition sum_operations (rs : list BenchmarkResult) : Z :=
  fold_left Z.add (map operations rs) 0.

(** What an instrumented allocator records: the pointers handed out by
    [malloc], and the pointers passed to [free], each in call order. *)
Definition allocated (evs : list event) : list ptr :=
  flat_map (fun e => match e with EvMalloc _ p => [p] | _ => [] end) evs.

Definition freed (evs : list event) : list ptr :=
  flat_map (fun e => match e with EvFree p => [p] | _ => [] end) evs.

Definition resize_steps (evs : list event) : nat :=
  List.length (filter (fun e => match e with EvRealloc _ _ _ => true | _ => false end) evs).

(** The seven workloads of the default run. *)
Inductive workload : Type :=
| Small | Medium | Large | Mixed | Reallocations | Strings | Growth.

(** The operations formula the specification documents for a workload run
    with iteration count [n]. *)
Definition documented_operations (id : workload) (n : Z) : Z :=
  match id with
  | Small | Medium | Large | Mixed => 2 * n
  | Reallocations | Growth => n
  | Strings => 3 * n
  end.

(** The block size of the three workloads that allocate blocks of one fixed
    size, the raw-allocation workloads. *)
Definition fixed_block_size (id : workload) : option Z :=
  match id with
  | Small => Some 64
  | Medium => Some 1024
  | Large => Some (1024 * 1024)
  | _ => None
  end.

(** The schedule of the default run as the specification words it: every
    workload at the base count, large allocations at a tenth of it. *)
Definition default_schedule (n : Z) : list (workload * Z) :=
  [(Small, n); (Medium, n); (Large, n / 10); (Mixed, n);
   (Reallocations, n); (Strings, n); (Growth, n)].

Section Vocabulary.
Context {H : Type} `{Allocator H}.
Variable P : platform.

Definition run_workload (id : workload) : Z -> M H BenchmarkResult :=
  match id with
  | Small => benchmark_small_allocations P
  | Medium => benchmark_medium_allocations P
  | Large => benchmark_large_allocations P
  | Mixed => benchmark_mixed_sizes P
  | Reallocations => benchmark_reallocations P
  | Strings => benchmark_string_operations P
  | Growth => benchmark_container_growth P
  end.

(** The largest iteration count a workload can hold in its vector. *)
Definition capacity (id : workload) : Z :=
  match id with
  | Small | Medium | Large | Mixed => max_size_ptr P
  | Reallocations => SIZE_MAX
  | Strings => max_size_string P
  | Growth => max_size_int P
  end.

(** Running a schedule in order, appending each result to [acc]. *)
Fixpoint run_schedule (sched : list (workload * Z)) (acc : list BenchmarkResult)
  : M H (list BenchmarkResult) :=
  match sched with
  | [] => ret acc
  | (id, n) :: rest => r <- run_workload id n ;; run_schedule rest (acc ++ [r])
  end.

(** What the reporter derives from a sequence of results. *)
Definition report_of (iterations : Z) (results : list BenchmarkResult) : report :=
  mkReport iterations results (map print_result results)
           (fst (totals results)) (snd (totals results))
           (average (snd (totals results)) (fst (totals results))).

(** The common shape of the four workloads that fill a vector of pointers:
    they differ in the name, the block sizes and the order of the free pass. *)
Definition pointer_workload (nm : string) (size_of : Z -> Z)
  (order : list ptr -> list ptr) (count : Z) : M H BenchmarkResult :=
  timer <- Timer_new ;;
  ptrs <- reserve (max_size_ptr P) [] count ;;
  ptrs <- allocate_all P size_of count ptrs ;;
  for_each (order ptrs) free ;;;
  ms <- elapsed_ms P timer ;;
  ret (mkResult nm ms (wrap64 (count * 2))).

(** The duration a stopwatch started at the [n]-th clock reading reports at
    the next one. *)
Definition measured (c : nat -> Z) (n : nat) : Double.double :=
  ms_of_us (duration_cast_us P (c (Datatypes.S n) - c n)).

End Vocabulary.

(** An implementation whose vectors can hold the default run. *)
Definition holds_default_run (P : platform) : Prop :=
  10000 <= max_size_ptr P /\ 10000 <= max_size_string P /\ 10000 <= max_size_int P.

(** The names of the seven rows, in the order of the default run. *)
Definition row_names : list string :=
  ["Small allocations (64 bytes)"; "Medium allocations (1KB)";
   "Large allocations (1MB)"; "Mixed size allocations"; "Reallocations";
   "String operations"; "Vector growth"]%string.

(** ** A test allocator *)

(** An arena that hands out consecutive addresses until it is exhausted and
    never reuses a block. *)
Record arena : Type := mkArena { next_free : Z; arena_end : Z }.

Definition arena_malloc (size : Z) (a : arena) : ptr * arena :=
  if next_free a + size <=? arena_end a
  then (next_free a, mkArena (next_free a + size) (arena_end a))
  else (null, a).

#[export] Instance arena_allocator : Allocator arena := {|
  alloc_malloc := arena_malloc;
  alloc_free := fun _ a => a;
  alloc_realloc := fun _ size a => arena_malloc size a
|}.

(** A world with an arena of [room] bytes at address 4096 and a nanosecond
    clock that advances 2500 ticks between readings. *)
Definition test_world (room : Z) : world arena :=
  mkWorld (mkArena 4096 (4096 + room)) [] (fun n => 1000 + 2500 * Z.of_nat n) 0.

(** A result whose workload finished within one microsecond. *)
Definition instant_result : BenchmarkResult :=
  mkResult "Small allocations (64 bytes)" Double.zero 20000.

Definition idle_result : BenchmarkResult :=
  mkResult "Reallocations" Double.zero 0.

(** A result with an operation count of half the range of [size_t]. *)
Definition huge_result : BenchmarkResult :=
  mkResult "Vector growth" (Double.of_Z 1) (2 ^ 63).

(** A world whose clock steps back between its first two readings (5000,
    then 1000 ticks) and runs forward afterwards. *)
Definition stepping_back_world : world arena :=
  mkWorld (mkArena 4096 (4096 + 100000000)) []
          (fun n => match n with
                    | O => 5000
                    | Datatypes.S m => 1000 + 2500 * Z.of_nat m
                    end) 0.

(** ** Further vocabulary *)

Definition is_nan (x : spec_float) : bool :=
  match x with S754_nan => true | _ => false end.

Definition is_zero (x : spec_float) : bool :=
  match x with S754_zero _ => true | _ => false end.

(** The test [if (ptr)] of a pointer. *)
Definition non_null (p : ptr) : bool := negb (p =? null).

(** Numbers of calls an instrumented allocator counts. *)
Definition malloc_calls (evs : list event) : Z := Z.of_nat (List.length (allocated evs)).
Definition free_calls (evs : list event) : Z := Z.of_nat (List.length (freed evs)).
Definition realloc_calls (evs : list event) : Z := Z.of_nat (resize_steps evs).

(** ** The greeting library (examples/01-new-project) *)

(** [mylib::get_greeting]: [fmt::format("Hello, {}!", name)] puts the string
    [name] in place of the replacement field. *)
Definition get_greeting (name : string) : string :=
  ("Hello, " ++ name ++ "!")%string.

(** ** Vocabulary for whole runs *)

Definition workload_name (id : workload) : string :=
  match id with
  | Small => "Small allocations (64 bytes)"
  | Medium => "Medium allocations (1KB)"
  | Large => "Large allocations (1MB)"
  | Mixed => "Mixed size allocations"
  | Reallocations => "Reallocations"
  | Strings => "String operations"
  | Growth => "Vector growth"
  end.

(** The numbers of [malloc] (and of [free]) calls and of [realloc] calls a
    workload makes when run with [n] iterations. *)
Definition pointer_calls (id : workload) (n : Z) : Z :=
  match id with
  | Small | Medium | Large | Mixed => n
  | Reallocations => 1
  | Strings | Growth => 0
  end.

Definition resize_calls (id : workload) (n : Z) : Z :=
  match id with
  | Reallocations => Z.max 0 (n - 1)
  | _ => 0
  end.

Definition sum_over (f : workload -> Z -> Z) (sched : list (workload * Z)) : Z :=
  fold_right (fun job acc => f (fst job) (snd job) + acc) 0 sched.

(** The results of a schedule whose first workload starts its stopwatch at
    the [n]-th clock reading: each workload takes two readings. *)
Fixpoint scheduled_results (P : platform) (c : nat -> Z) (n : nat)
  (sched : list (workload * Z)) : list BenchmarkResult :=
  match sched with
  | [] => []
  | (id, k) :: rest =>
      mkResult (workload_name id) (measured P c n) (documented_operations id k)
      :: scheduled_results P c (2 + n) rest
  end.

(** A schedule every job of which fits the vector of its workload. *)
Definition fits (P : platform) (sched : list (workload * Z)) : Prop :=
  Forall (fun job => 0 <= snd job <= capacity P (fst job) /\ snd job <= SIZE_MAX)
         sched.

(** ** Blocks, by the contract of the C allocator

    A call that returns a non-null pointer hands out a block; [free] of a
    non-null pointer and a successful [realloc] of a non-null pointer give one
    back; a failed [realloc] leaves the block it was given allocated.  (All
    requests of the workloads have a non-zero size when [N < 2^58].) *)

Definition live (p : ptr) : Z := if p =? null then 0 else 1.

Definition tally (f : event -> Z) (evs : list event) : Z :=
  fold_right (fun e acc => f e + acc) 0 evs.

Definition obtained : list event -> Z :=
  tally (fun e => match e with
                  | EvMalloc _ p => live p
                  | EvRealloc _ _ q => live q
                  | EvFree _ => 0
                  end).

Definition released : list event -> Z :=
  tally (fun e => match e with
                  | EvFree p => live p
                  | EvRealloc p _ q => live p * live q
                  | EvMalloc _ _ => 0
                  end).

(** Failed resizes of a block that was allocated. *)
Definition failed_resizes : list event -> Z :=
  tally (fun e => match e with
                  | EvRealloc p _ q => live p * (1 - live q)
                  | _ => 0
                  end).

(** [test_greeting] of tests/test_main.cpp: the condition of its [assert]. *)
Definition test_greeting : bool :=
  String.eqb (get_greeting "Test") "Hello, Test!".

(** * Properties *)

(** ** Binary64 arithmetic *)

Lemma digits2_pos_bounds (p : positive) :
  2 ^ (Z.pos (digits2_pos p) - 1) <= Z.pos p < 2 ^ Z.pos (digits2_pos p).
Proof.
  induction p as [p IH | p IH |]; cbn [digits2_pos].
  - rewrite Pos2Z.inj_succ.
    replace (Z.succ (Z.pos (digits2_pos p)) - 1) with (Z.succ (Z.pos (digits2_pos p) - 1)) by lia.
    rewrite !Z.pow_succ_r by lia. lia.
  - rewrite Pos2Z.inj_succ.
    replace (Z.succ (Z.pos (digits2_pos p)) - 1) with (Z.succ (Z.pos (digits2_pos p) - 1)) by lia.
    rewrite !Z.pow_succ_r by lia. lia.
  - cbn. lia.
Qed.

Lemma shr_1_m (r : shr_record) :
  0 <= shr_m r -> shr_m (shr_1 r) = shr_m r / 2.
Proof.
  destruct r as [m b s]; cbn [shr_m shr_1]; intros Hm.
  destruct m as [| [p | p |] | p]; cbn [shr_m]; try lia; try reflexivity.
  - apply Z.div_unique with (r := 1); lia.
  - apply Z.div_unique with (r := 0); lia.
Qed.

Lemma iter_pos_shr_1_m (k : positive) :
  forall r, 0 <= shr_m r -> shr_m (iter_pos shr_1 k r) = shr_m r / 2 ^ Z.pos k.
Proof.
  induction k as [k IH | k IH |]; intros r Hr; cbn [iter_pos].
  - assert (H1 : 0 <= shr_m (shr_1 r)) by (rewrite shr_1_m by exact Hr; apply Z.div_pos; lia).
    assert (H2 : 0 <= shr_m (iter_pos shr_1 k (shr_1 r)))
      by (rewrite IH by exact H1; apply Z.div_pos; lia).
    rewrite IH by exact H2. rewrite IH by exact H1. rewrite shr_1_m by exact Hr.
    rewrite !Z.div_div by lia. f_equal.
    replace (Z.pos k~1) with (1 + Z.pos k + Z.pos k) by lia.
    rewrite !Z.pow_add_r by lia. change (2 ^ 1) with 2. lia.
  - assert (H2 : 0 <= shr_m (iter_pos shr_1 k r))
      by (rewrite IH by exact Hr; apply Z.div_pos; lia).
    rewrite IH by exact H2. rewrite IH by exact Hr.
    rewrite !Z.div_div by lia. f_equal.
    replace (Z.pos k~0) with (Z.pos k + Z.pos k) by lia.
    rewrite Z.pow_add_r by lia. reflexivity.
  - rewrite shr_1_m by exact Hr. reflexivity.
Qed.


Lemma digits2_pos_iter_xO (m k : positive) :
  Z.pos (digits2_pos (Pos.iter xO m k)) = Z.pos (digits2_pos m) + Z.pos k.
Proof.
  induction k as [| k IH] using Pos.peano_ind.
  - cbn [Pos.iter digits2_pos]. lia.
  - rewrite Pos.iter_succ. cbn [digits2_pos]. lia.
Qed.

Lemma digits2_pos_le (p : positive) (k : Z) :
  Z.pos p <= 2 ^ k -> 0 <= k -> Z.pos (digits2_pos p) <= k + 1.
Proof.
  intros Hp Hk. pose proof (digits2_pos_bounds p) as [Hlo _].
  destruct (Z_le_gt_dec (Z.pos (digits2_pos p)) (k + 1)) as [|Hgt]; [assumption|].
  assert (2 ^ (k + 1) <= 2 ^ (Z.pos (digits2_pos p) - 1))
    by (apply Z.pow_le_mono_r; lia).
  rewrite Z.pow_add_r in * by lia. lia.
Qed.

Lemma shr_record_of_loc_m (m : Z) (l : location) :
  shr_m (shr_record_of_loc m l) = m.
Proof. destruct l as [| []]; reflexivity. Qed.

Lemma round_nearest_even_bounds (m : Z) (l : location) :
  m <= round_nearest_even m l <= m + 1.
Proof.
  destruct l as [| []]; cbn [round_nearest_even]; try lia.
  destruct (Z.even m); lia.
Qed.

(** Shifting right to the target exponent keeps a mantissa non-negative. *)
Lemma shr_fexp_nonneg (prec emax m e : Z) (l : location) :
  0 <= m -> 0 <= shr_m (fst (shr_fexp prec emax m e l)) <= m.
Proof.
  intros Hm. unfold shr_fexp, shr.
  destruct (fexp prec emax (Zdigits2 m + e) - e) as [| k | k];
    cbn [fst]; rewrite ?shr_record_of_loc_m; try lia.
  rewrite iter_pos_shr_1_m by (rewrite shr_record_of_loc_m; exact Hm).
  rewrite shr_record_of_loc_m.
  assert (0 < 2 ^ Z.pos k) by (apply Z.pow_pos_nonneg; lia).
  split; [apply Z.div_pos; lia|].
  apply Z.div_le_upper_bound; nia.
Qed.

Lemma binary_round_aux_sign (prec emax : Z) (sx : bool) (mx ex : Z) (lx : location) :
  0 <= mx -> has_sign sx (binary_round_aux prec emax sx mx ex lx).
Proof.
  intros Hm. unfold binary_round_aux.
  pose proof (shr_fexp_nonneg prec emax mx ex lx Hm) as H1.
  destruct (shr_fexp prec emax mx ex lx) as [mrs' e'] eqn:E1. cbn [fst] in H1.
  pose proof (round_nearest_even_bounds (shr_m mrs') (loc_of_shr_record mrs')) as H2.
  set (m1 := round_nearest_even (shr_m mrs') (loc_of_shr_record mrs')) in *.
  assert (Hm1 : 0 <= m1) by lia.
  pose proof (shr_fexp_nonneg prec emax m1 e' loc_Exact Hm1) as H3.
  destruct (shr_fexp prec emax m1 e' loc_Exact) as [mrs'' e''] eqn:E2. cbn [fst] in H3.
  destruct (shr_m mrs'') as [| p | p]; cbn [has_sign]; try reflexivity; try lia.
  destruct (e'' <=? emax - prec); reflexivity.
Qed.

(** With a mantissa that is positive and an exponent in the normal range, the
    shift leaves a positive mantissa. *)
Lemma shr_fexp_pos (m e : Z) (l : location) :
  0 < m -> -1074 <= e ->
  0 < shr_m (fst (shr_fexp 53 1024 m e l)) <= m /\
  snd (shr_fexp 53 1024 m e l) = Z.max e (Zdigits2 m + e - 53).
Proof.
  intros Hm He. unfold shr_fexp, shr, fexp, emin.
  destruct m as [| p | p]; try lia. cbn [Zdigits2].
  pose proof (digits2_pos_bounds p) as [Hlo Hhi].
  set (d := Z.pos (digits2_pos p)) in *.
  destruct (Z.max (d + e - 53) (3 - 1024 - 53) - e) as [| k | k] eqn:Ek;
    cbn [fst snd]; rewrite ?shr_record_of_loc_m; try lia.
  rewrite iter_pos_shr_1_m by (rewrite shr_record_of_loc_m; lia).
  rewrite shr_record_of_loc_m.
  assert (Hk : Z.pos k <= d - 1) by lia.
  assert (Hpow : 2 ^ Z.pos k <= 2 ^ (d - 1)) by (apply Z.pow_le_mono_r; lia).
  assert (0 < 2 ^ Z.pos k) by (apply Z.pow_pos_nonneg; lia).
  split; [split|lia].
  - apply Z.div_str_pos. lia.
  - apply Z.div_le_upper_bound; nia.
Qed.

(** Rounding a positive mantissa of at most 120 bits at a small exponent
    gives a positive finite number. *)
Lemma binary_round_aux_pos (p : positive) (e : Z) :
  Z.pos (digits2_pos p) <= 120 -> -52 <= e <= 64 ->
  exists m' e', binary_round_aux 53 1024 false (Z.pos p) e loc_Exact
                = S754_finite false m' e'.
Proof.
  intros Hd He. unfold binary_round_aux.
  destruct (shr_fexp_pos (Z.pos p) e loc_Exact) as [H1 H1e]; try lia.
  destruct (shr_fexp 53 1024 (Z.pos p) e loc_Exact) as [mrs' e'] eqn:E1.
  cbn [fst snd] in H1, H1e. cbn [Zdigits2] in H1e.
  pose proof (round_nearest_even_bounds (shr_m mrs') (loc_of_shr_record mrs')) as H2.
  set (m1 := round_nearest_even (shr_m mrs') (loc_of_shr_record mrs')) in *.
  destruct (shr_fexp_pos m1 e' loc_Exact) as [H3 H3e]; try lia.
  destruct (shr_fexp 53 1024 m1 e' loc_Exact) as [mrs'' e''] eqn:E2.
  cbn [fst snd] in H3, H3e.
  pose proof (digits2_pos_bounds p) as [_ Hp].
  assert (Hp120 : 2 ^ Z.pos (digits2_pos p) <= 2 ^ 120) by (apply Z.pow_le_mono_r; lia).
  assert (Hd1 : Zdigits2 m1 <= 122).
  { destruct m1 as [| q | q]; try lia. cbn [Zdigits2].
    apply (digits2_pos_le q 121); [|lia].
    change (2 ^ 121) with (2 * 2 ^ 120). lia. }
  destruct (shr_m mrs'') as [| q | q]; try lia.
  replace (e'' <=? 1024 - 53) with true by (symmetry; apply Z.leb_le; lia).
  eauto.
Qed.

(** A non-zero [size_t] converts to a positive finite [double]. *)
Lemma of_Z_pos_finite (n : Z) :
  0 < n <= SIZE_MAX -> exists m e, Double.of_Z n = S754_finite false m e.
Proof.
  intros [Hlo Hhi]. destruct n as [| p | p]; try lia.
  unfold Double.of_Z, binary_normalize, binary_round, Double.prec, Double.emax.
  assert (Hd : Z.pos (digits2_pos p) <= 65).
  { apply (digits2_pos_le p 64); [|lia]. unfold SIZE_MAX in Hhi. lia. }
  unfold shl_align, fexp, emin.
  destruct (Z.max (Z.pos (digits2_pos p) + 0 - 53) (3 - 1024 - 53) - 0)
    as [| k | k] eqn:Ek.
  - apply binary_round_aux_pos; lia.
  - apply binary_round_aux_pos; lia.
  - apply binary_round_aux_pos.
    + rewrite digits2_pos_iter_xO. lia.
    + lia.
Qed.

(** A non-negative integer converts to a non-negative [double]. *)
Lemma of_Z_nonneg (n : Z) : 0 <= n -> has_sign false (Double.of_Z n).
Proof.
  intros Hn. destruct n as [| p | p]; try lia; [reflexivity|].
  unfold Double.of_Z, binary_normalize, binary_round.
  destruct (shl_align p 0 _) as [mz ez].
  apply binary_round_aux_sign. lia.
Qed.

(** Dividing a non-negative [double] by [1000.0] gives a non-negative one. *)
Lemma div_thousand_nonneg (x : spec_float) :
  has_sign false x -> has_sign false (Double.div x Double.thousand).
Proof.
  destruct x as [s | s | | s m e]; cbn [has_sign]; intros Hs; subst;
    try reflexivity; try contradiction.
  unfold Double.div, Double.thousand, SFdiv.
  destruct (SFdiv_core_binary _ _ _ _ _ _) as [[mz ez] lz] eqn:E.
  apply binary_round_aux_sign.
  unfold SFdiv_core_binary in E.
  match type of E with
  | (let '(q, r) := Z.div_eucl ?a ?b in _) = _ =>
      pose proof (Z.div_pos a b) as Hq; unfold Z.div in Hq;
      destruct (Z.div_eucl a b) as [q r] eqn:Eq
  end.
  injection E as <- _ _. apply Hq; [|lia].
  match goal with
  | |- 0 <= match ?s with _ => _ end => destruct s; try lia
  end.
  apply Z.shiftl_nonneg. lia.
Qed.

Lemma has_sign_false_is_nonneg (x : spec_float) :
  has_sign false x -> Double.is_nonneg x = true.
Proof.
  destruct x as [s | s | | s m e]; cbn [has_sign]; intros Hs; subst;
    try reflexivity; contradiction.
Qed.

(** ** Sequencing *)

Section Sequencing.
Context {H : Type}.

Lemma bind_returned {A B} (m : M H A) (k : A -> M H B) (w w' : world H) (a : A) :
  m w = Returned (a, w') -> bind m k w = k a w'.
Proof. unfold bind. intros ->. reflexivity. Qed.

Lemma bind_thrown {A B} (m : M H A) (k : A -> M H B) (w : world H) (e : exception) :
  m w = Thrown e -> bind m k w = Thrown e.
Proof. unfold bind. intros ->. reflexivity. Qed.

Lemma world_eta (w : world H) :
  mkWorld (heap w) (trace w) (clock w) (reads w) = w.
Proof. destruct w; reflexivity. Qed.

(** A loop of [push_back]s succeeds exactly when the vector has room for
    all of them. *)
Lemma push_loop_returns {A} (max : Z) (f : Z -> A) (n : nat) :
  forall (i : Z) (v0 : list A) (w : world H),
    Z.of_nat (List.length v0) + Z.of_nat n <= max ->
    exists v, List.length v = (List.length v0 + n)%nat /\
      for_from n i (fun i v => push_back max v (f i)) v0 w = Returned (v, w).
Proof.
  induction n as [| n IH]; intros i v0 w Hroom.
  - exists v0. split; [lia | reflexivity].
  - cbn [for_from]. unfold push_back at 1.
    destruct (Z.leb_spec max (Z.of_nat (List.length v0))) as [Hfull | _]; [lia|].
    rewrite (bind_returned _ _ w w (v0 ++ [f i])) by reflexivity.
    destruct (IH (i + 1) (v0 ++ [f i]) w) as (v & Hlen & Heq).
    { rewrite length_app. cbn [List.length]. lia. }
    exists v. rewrite length_app in Hlen. cbn [List.length] in Hlen.
    split; [lia | exact Heq].
Qed.

Lemma push_loop_throws {A} (max : Z) (f : Z -> A) (n : nat) :
  forall (i : Z) (v0 : list A) (w : world H),
    max < Z.of_nat (List.length v0) + Z.of_nat n ->
    Z.of_nat (List.length v0) <= max ->
    for_from n i (fun i v => push_back max v (f i)) v0 w = Thrown length_error.
Proof.
  induction n as [| n IH]; intros i v0 w Hover Hfit.
  - lia.
  - cbn [for_from]. unfold push_back at 1.
    destruct (Z.leb_spec max (Z.of_nat (List.length v0))) as [Hfull | Hfree].
    + reflexivity.
    + rewrite (bind_returned _ _ w w (v0 ++ [f i])) by reflexivity.
      apply IH; rewrite length_app; cbn [List.length]; lia.
Qed.

End Sequencing.

(** ** The allocation and deallocation passes *)

Section Passes.
Context {H : Type} `{Allocator H}.
Variable P : platform.

Lemma malloc_loop (size_of : Z -> Z) (n : nat) :
  forall (i : Z) (ptrs0 : list ptr) (w : world H),
    Z.of_nat (List.length ptrs0) + Z.of_nat n <= max_size_ptr P ->
    exists ps h',
      List.length ps = n /\
      for_from n i
        (fun i ptrs => p <- malloc (size_of i) ;; push_back (max_size_ptr P) ptrs p)
        ptrs0 w
      = Returned (ptrs0 ++ ps,
                  mkWorld h' (trace w ++ malloc_events size_of i ps)
                          (clock w) (reads w)).
Proof.
  induction n as [| n IH]; intros i ptrs0 w Hroom.
  - exists [], (heap w). split; [reflexivity|].
    cbn [for_from malloc_events]. rewrite !app_nil_r, world_eta. reflexivity.
  - cbn [for_from].
    destruct (alloc_malloc (size_of i) (heap w)) as [p h] eqn:Em.
    set (w1 := log (EvMalloc (size_of i) p) w h).
    assert (Hstep : bind (malloc (size_of i))
                      (fun p => push_back (max_size_ptr P) ptrs0 p) w
                    = Returned (ptrs0 ++ [p], w1)).
    { unfold bind, malloc. rewrite Em. unfold push_back.
      destruct (Z.leb_spec (max_size_ptr P) (Z.of_nat (List.length ptrs0)));
        [lia | reflexivity]. }
    rewrite (bind_returned _ _ _ _ _ Hstep).
    destruct (IH (i + 1) (ptrs0 ++ [p]) w1) as (ps & h' & Hlen & Heq).
    { rewrite length_app. cbn [List.length]. lia. }
    exists (p :: ps), h'. split; [cbn [List.length]; lia|].
    rewrite Heq. cbn [malloc_events w1 log trace clock reads].
    rewrite <- !app_assoc. reflexivity.
Qed.

Lemma free_loop (ps : list ptr) :
  forall w : world H,
    exists h',
      for_each ps free w
      = Returned (tt, mkWorld h' (trace w ++ map EvFree ps) (clock w) (reads w)).
Proof.
  induction ps as [| p ps IH]; intros w.
  - exists (heap w). cbn [for_each map]. rewrite app_nil_r, world_eta. reflexivity.
  - cbn [for_each].
    set (w1 := log (EvFree p) w (alloc_free p (heap w))).
    rewrite (bind_returned _ _ w w1 tt) by reflexivity.
    destruct (IH w1) as (h' & Heq). exists h'. rewrite Heq.
    cbn [w1 log trace clock reads map]. rewrite <- app_assoc. reflexivity.
Qed.

Lemma last_cons (qs : list ptr) :
  forall q d : ptr, last (q :: qs) d = last qs q.
Proof.
  induction qs as [| a qs IH]; intros q d; [reflexivity|].
  change (last (q :: a :: qs) d) with (last (a :: qs) d).
  rewrite (IH a d), (IH a q). reflexivity.
Qed.

Lemma realloc_loop (n : nat) :
  forall (i : Z) (p0 : ptr) (w : world H),
    exists qs h',
      List.length qs = n /\
      for_from n i (fun i p => realloc p (wrap64 (64 * wrap64 (i + 1)))) p0 w
      = Returned (last qs p0,
                  mkWorld h' (trace w ++ realloc_events i p0 qs)
                          (clock w) (reads w)).
Proof.
  induction n as [| n IH]; intros i p0 w.
  - exists [], (heap w). split; [reflexivity|].
    cbn [for_from realloc_events last]. rewrite app_nil_r, world_eta. reflexivity.
  - cbn [for_from].
    destruct (alloc_realloc p0 (wrap64 (64 * wrap64 (i + 1))) (heap w))
      as [q h] eqn:Er.
    set (w1 := log (EvRealloc p0 (wrap64 (64 * wrap64 (i + 1))) q) w h).
    assert (Hstep : realloc p0 (wrap64 (64 * wrap64 (i + 1))) w = Returned (q, w1)).
    { unfold realloc. rewrite Er. reflexivity. }
    rewrite (bind_returned _ _ _ _ _ Hstep).
    destruct (IH (i + 1) q w1) as (qs & h' & Hlen & Heq).
    exists (q :: qs), h'. split; [cbn [List.length]; lia|].
    rewrite Heq. cbn [realloc_events w1 log trace clock reads].
    rewrite <- app_assoc, last_cons. reflexivity.
Qed.

End Passes.

(** ** What each workload returns *)

Section Outcomes.
Context {H : Type} `{Allocator H}.
Variable P : platform.

Lemma pointer_workload_returns (nm : string) (size_of : Z -> Z)
  (order : list ptr -> list ptr) (count : Z) (w : world H) :
  0 <= count <= max_size_ptr P ->
  exists ps h',
    List.length ps = Z.to_nat count /\
    pointer_workload P nm size_of order count w
    = Returned (mkResult nm (measured P (clock w) (reads w)) (wrap64 (count * 2)),
                mkWorld h'
                  (trace w ++ malloc_events size_of 0 ps ++ map EvFree (order ps))
                  (clock w) (Datatypes.S (Datatypes.S (reads w)))).
Proof.
  intros Hcount. unfold pointer_workload.
  set (w1 := mkWorld (heap w) (trace w) (clock w) (Datatypes.S (reads w))).
  rewrite (bind_returned _ _ w w1 (mkTimer (clock w (reads w)))) by reflexivity.
  assert (Hres : reserve (max_size_ptr P) (@nil ptr) count w1 = Returned ([], w1)).
  { unfold reserve. destruct (Z.ltb_spec (max_size_ptr P) count); [lia | reflexivity]. }
  rewrite (bind_returned _ _ _ _ _ Hres).
  destruct (malloc_loop P size_of (Z.to_nat count) 0 [] w1) as (ps & h1 & Hlen & Heq).
  { cbn [List.length]. lia. }
  assert (Hall : allocate_all P size_of count [] w1
                 = Returned (ps, mkWorld h1 (trace w ++ malloc_events size_of 0 ps)
                                         (clock w) (Datatypes.S (reads w)))).
  { unfold allocate_all, for_loop. rewrite Z.sub_0_r. exact Heq. }
  rewrite (bind_returned _ _ _ _ _ Hall).
  destruct (free_loop (order ps)
              (mkWorld h1 (trace w ++ malloc_events size_of 0 ps)
                       (clock w) (Datatypes.S (reads w)))) as (h2 & Hfree).
  rewrite (bind_returned _ _ _ _ _ Hfree). cbn [trace clock reads].
  exists ps, h2. split; [exact Hlen|].
  rewrite <- app_assoc. reflexivity.
Qed.

Lemma pointer_workload_throws (nm : string) (size_of : Z -> Z)
  (order : list ptr -> list ptr) (count : Z) (w : world H) :
  max_size_ptr P < count ->
  pointer_workload P nm size_of order count w = Thrown length_error.
Proof.
  intros Hcount. unfold pointer_workload.
  set (w1 := mkWorld (heap w) (trace w) (clock w) (Datatypes.S (reads w))).
  rewrite (bind_returned _ _ w w1 (mkTimer (clock w (reads w)))) by reflexivity.
  apply bind_thrown. unfold reserve.
  destruct (Z.ltb_spec (max_size_ptr P) count); [reflexivity | lia].
Qed.

Lemma reallocations_returns (count : Z) (w : world H) :
  exists p qs h',
    List.length qs = Z.to_nat (count - 1) /\
    benchmark_reallocations P count w
    = Returned (mkResult "Reallocations" (measured P (clock w) (reads w)) count,
                mkWorld h'
                  (trace w ++ EvMalloc 64 p :: realloc_events 1 p qs
                     ++ [EvFree (last qs p)])
                  (clock w) (Datatypes.S (Datatypes.S (reads w)))).
Proof.
  unfold benchmark_reallocations.
  set (w1 := mkWorld (heap w) (trace w) (clock w) (Datatypes.S (reads w))).
  rewrite (bind_returned _ _ w w1 (mkTimer (clock w (reads w)))) by reflexivity.
  destruct (alloc_malloc 64 (heap w)) as [p h] eqn:Em.
  assert (Hm : malloc 64 w1 = Returned (p, log (EvMalloc 64 p) w1 h)).
  { unfold malloc. cbn [w1 heap]. rewrite Em. reflexivity. }
  rewrite (bind_returned _ _ _ _ _ Hm).
  destruct (realloc_loop (Z.to_nat (count - 1)) 1 p (log (EvMalloc 64 p) w1 h))
    as (qs & h1 & Hlen & Heq).
  unfold for_loop. rewrite (bind_returned _ _ _ _ _ Heq).
  match goal with
  | |- context [bind (free ?q) _ ?w2] =>
      rewrite (bind_returned _ _ w2 (log (EvFree q) w2 (alloc_free q (heap w2))) tt)
        by reflexivity
  end.
  exists p, qs, (alloc_free (last qs p) h1). split; [exact Hlen|].
  unfold bind, elapsed_ms, now, ret, log, measured.
  cbn [w1 heap trace clock reads start_].
  rewrite <- !app_assoc. reflexivity.
Qed.

Lemma string_operations_returns (count : Z) (w : world H) :
  0 <= count <= max_size_string P ->
  benchmark_string_operations P count w
  = Returned (mkResult "String operations" (measured P (clock w) (reads w))
                       (wrap64 (count * 3)),
              mkWorld (heap w) (trace w) (clock w)
                      (Datatypes.S (Datatypes.S (reads w)))).
Proof.
  intros Hcount. unfold benchmark_string_operations.
  set (w1 := mkWorld (heap w) (trace w) (clock w) (Datatypes.S (reads w))).
  rewrite (bind_returned _ _ w w1 (mkTimer (clock w (reads w)))) by reflexivity.
  assert (Hres : reserve (max_size_string P) (@nil string) count w1 = Returned ([], w1)).
  { unfold reserve. destruct (Z.ltb_spec (max_size_string P) count); [lia | reflexivity]. }
  rewrite (bind_returned _ _ _ _ _ Hres).
  destruct (push_loop_returns (H := H) (max_size_string P)
              (fun i => ("This is a test string number " ++ to_string i)%string)
              (Z.to_nat (count - 0)) 0 [] w1) as (v & _ & Heq).
  { cbn [List.length]. lia. }
  unfold for_loop. rewrite (bind_returned _ _ _ _ _ Heq).
  reflexivity.
Qed.

Lemma string_operations_throws (count : Z) (w : world H) :
  max_size_string P < count ->
  benchmark_string_operations P count w = Thrown length_error.
Proof.
  intros Hcount. unfold benchmark_string_operations.
  set (w1 := mkWorld (heap w) (trace w) (clock w) (Datatypes.S (reads w))).
  rewrite (bind_returned _ _ w w1 (mkTimer (clock w (reads w)))) by reflexivity.
  apply bind_thrown. unfold reserve.
  destruct (Z.ltb_spec (max_size_string P) count); [reflexivity | lia].
Qed.

Lemma container_growth_returns (count : Z) (w : world H) :
  0 <= max_size_int P -> count <= max_size_int P ->
  benchmark_container_growth P count w
  = Returned (mkResult "Vector growth" (measured P (clock w) (reads w)) count,
              mkWorld (heap w) (trace w) (clock w)
                      (Datatypes.S (Datatypes.S (reads w)))).
Proof.
  intros Hmax Hcount. unfold benchmark_container_growth.
  set (w1 := mkWorld (heap w) (trace w) (clock w) (Datatypes.S (reads w))).
  rewrite (bind_returned _ _ w w1 (mkTimer (clock w (reads w)))) by reflexivity.
  destruct (push_loop_returns (H := H) (max_size_int P) to_int32
              (Z.to_nat (count - 0)) 0 [] w1) as (v & _ & Heq).
  { cbn [List.length]. lia. }
  unfold for_loop. rewrite (bind_returned _ _ _ _ _ Heq).
  reflexivity.
Qed.

Lemma container_growth_throws (count : Z) (w : world H) :
  0 <= max_size_int P -> max_size_int P < count ->
  benchmark_container_growth P count w = Thrown length_error.
Proof.
  intros Hmax Hcount. unfold benchmark_container_growth.
  set (w1 := mkWorld (heap w) (trace w) (clock w) (Datatypes.S (reads w))).
  rewrite (bind_returned _ _ w w1 (mkTimer (clock w (reads w)))) by reflexivity.
  apply bind_thrown. unfold for_loop.
  apply push_loop_throws; cbn [List.length]; lia.
Qed.

End Outcomes.

(** ** What an instrumented allocator sees *)

Lemma allocated_app (xs ys : list event) :
  allocated (xs ++ ys) = allocated xs ++ allocated ys.
Proof. apply flat_map_app. Qed.

Lemma freed_app (xs ys : list event) :
  freed (xs ++ ys) = freed xs ++ freed ys.
Proof. apply flat_map_app. Qed.

Lemma allocated_malloc_events (size_of : Z -> Z) (ps : list ptr) :
  forall i0, allocated (malloc_events size_of i0 ps) = ps.
Proof.
  induction ps as [| p ps IH]; intros i0; [reflexivity|].
  cbn [malloc_events]. change (allocated (?e :: ?l)) with (p :: allocated l).
  rewrite IH. reflexivity.
Qed.

Lemma freed_malloc_events (size_of : Z -> Z) (ps : list ptr) :
  forall i0, freed (malloc_events size_of i0 ps) = [].
Proof.
  induction ps as [| p ps IH]; intros i0; [reflexivity|].
  cbn [malloc_events]. change (freed (?e :: ?l)) with (freed l). apply IH.
Qed.

Lemma allocated_frees (ps : list ptr) : allocated (map EvFree ps) = [].
Proof. induction ps as [| p ps IH]; [reflexivity | exact IH]. Qed.

Lemma freed_frees (ps : list ptr) : freed (map EvFree ps) = ps.
Proof.
  induction ps as [| p ps IH]; [reflexivity|].
  cbn [map]. change (freed (?e :: ?l)) with (p :: freed l). rewrite IH. reflexivity.
Qed.

(** The [k]-th request of an allocation pass asks for [size_of (i0 + k)]. *)
Lemma nth_error_malloc_events (size_of : Z -> Z) (ps : list ptr) :
  forall (i0 : Z) (k : nat) (p : ptr),
    nth_error ps k = Some p ->
    nth_error (malloc_events size_of i0 ps) k
    = Some (EvMalloc (size_of (i0 + Z.of_nat k)) p).
Proof.
  induction ps as [| q ps IH]; intros i0 k p Hk.
  - destruct k; discriminate.
  - destruct k as [| k]; cbn [nth_error malloc_events] in *.
    + injection Hk as ->. rewrite Z.add_0_r. reflexivity.
    + rewrite (IH (i0 + 1) k p Hk). do 3 f_equal. lia.
Qed.

Lemma platform_ok_facts (P : platform) :
  platform_ok P ->
  0 < ticks_per_us P /\
  (0 <= max_size_ptr P /\ max_size_ptr P * 8 <= SIZE_MAX) /\
  (0 <= max_size_string P /\ max_size_string P * 24 <= SIZE_MAX) /\
  (0 <= max_size_int P /\ max_size_int P * 4 <= SIZE_MAX).
Proof.
  unfold platform_ok, platform_okb. rewrite !andb_true_iff.
  rewrite Z.ltb_lt, !Z.leb_le. tauto.
Qed.

Lemma wrap64_small (z : Z) : 0 <= z <= SIZE_MAX -> wrap64 z = z.
Proof. unfold wrap64, SIZE_MAX. intros Hz. apply Z.mod_small. lia. Qed.

(** ** The workloads, one by one *)

Section WorkloadClaims.
Context {H : Type} `{Allocator H}.
Variable P : platform.

(** Every workload returns when its iteration count fits its vector, with
    the documented operation count and the duration its stopwatch measured;
    beyond that count it throws. *)
Lemma workload_returns (id : workload) (N : Z) (w : world H) :
  platform_ok P -> 0 <= N <= capacity P id -> N <= SIZE_MAX ->
  exists evs h',
    run_workload P id N w
    = Returned (mkResult (nth (match id with
                               | Small => 0 | Medium => 1 | Large => 2 | Mixed => 3
                               | Reallocations => 4 | Strings => 5 | Growth => 6
                               end) row_names ""%string)
                         (measured P (clock w) (reads w))
                         (documented_operations id N),
                mkWorld h' (trace w ++ evs) (clock w)
                        (Datatypes.S (Datatypes.S (reads w)))).
Proof.
  intros Hok HN Hsz.
  destruct (platform_ok_facts P Hok) as (_ & Hp & Hs & Hi).
  unfold SIZE_MAX in *.
  destruct id; cbn [run_workload capacity documented_operations nth row_names] in *.
  - destruct (pointer_workload_returns P "Small allocations (64 bytes)"
                (fun _ => 64) (fun l => l) N w HN) as (ps & h' & _ & Heq).
    rewrite wrap64_small in Heq by (unfold SIZE_MAX; lia).
    replace (N * 2) with (2 * N) in Heq by lia. eauto.
  - destruct (pointer_workload_returns P "Medium allocations (1KB)"
                (fun _ => 1024) (fun l => l) N w HN) as (ps & h' & _ & Heq).
    rewrite wrap64_small in Heq by (unfold SIZE_MAX; lia).
    replace (N * 2) with (2 * N) in Heq by lia. eauto.
  - destruct (pointer_workload_returns P "Large allocations (1MB)"
                (fun _ => 1024 * 1024) (fun l => l) N w HN) as (ps & h' & _ & Heq).
    rewrite wrap64_small in Heq by (unfold SIZE_MAX; lia).
    replace (N * 2) with (2 * N) in Heq by lia. eauto.
  - destruct (pointer_workload_returns P "Mixed size allocations"
                (fun i => nth (Z.to_nat (i mod 10)) sizes 0) (@rev ptr) N w HN)
      as (ps & h' & _ & Heq).
    rewrite wrap64_small in Heq by (unfold SIZE_MAX; lia).
    replace (N * 2) with (2 * N) in Heq by lia. eauto.
  - destruct (reallocations_returns P N w) as (p & qs & h' & _ & Heq). eauto.
  - exists [], (heap w). rewrite app_nil_r.
    rewrite (string_operations_returns P N w HN).
    rewrite wrap64_small by (unfold SIZE_MAX; lia).
    replace (N * 3) with (3 * N) by lia. reflexivity.
  - exists [], (heap w). rewrite app_nil_r.
    rewrite (container_growth_returns P N w) by lia. reflexivity.
Qed.

Lemma workload_throws (id : workload) (N : Z) (w : world H) :
  platform_ok P -> capacity P id < N -> N <= SIZE_MAX ->
  run_workload P id N w = Thrown length_error.
Proof.
  intros Hok HN Hsz.
  destruct (platform_ok_facts P Hok) as (_ & Hp & Hs & Hi).
  destruct id; cbn [run_workload capacity] in *.
  - exact (pointer_workload_throws P _ _ (fun l => l) N w HN).
  - exact (pointer_workload_throws P _ _ (fun l => l) N w HN).
  - exact (pointer_workload_throws P _ _ (fun l => l) N w HN).
  - exact (pointer_workload_throws P _ _ (@rev ptr) N w HN).
  - lia.
  - exact (string_operations_throws P N w HN).
  - apply container_growth_throws; lia.
Qed.

(** C4. For every iteration count [N] a workload can be given, the
    operations it reports are those of its documented formula: [2N] for small,
    medium, large (of its own count) and mixed allocations, [N] for
    reallocations and container growth, [3N] for string operations.  A
    workload reports a result whenever [N] does not exceed the [max_size()]
    of its vector; beyond it the workload throws and reports nothing. *)
Theorem operations_follow_documented_formula (id : workload) (N : Z) (w : world H) :
  platform_ok P -> is_size_t N ->
  (N <= capacity P id ->
   exists r w', run_workload P id N w = Returned (r, w') /\
                operations r = documented_operations id N) /\
  (forall r w', run_workload P id N w = Returned (r, w') ->
                operations r = documented_operations id N).
Proof.
  intros Hok [Hlo Hhi].
  assert (Hyes : N <= capacity P id ->
                 exists r w', run_workload P id N w = Returned (r, w') /\
                              operations r = documented_operations id N).
  { intros Hfit.
    destruct (workload_returns id N w Hok (conj Hlo Hfit) Hhi) as (evs & h' & Heq).
    rewrite Heq. eauto. }
  split; [exact Hyes|].
  intros r w' Hrun.
  destruct (Z_le_gt_dec N (capacity P id)) as [Hfit | Hover].
  - destruct (Hyes Hfit) as (r0 & w0 & Heq & Hops).
    rewrite Hrun in Heq. injection Heq as -> ->. exact Hops.
  - rewrite workload_throws in Hrun by (assumption || lia). discriminate.
Qed.

(** C8. With [N = 1] the reallocation workload performs no resize step,
    reports one operation, and frees its single initial allocation exactly
    once: the allocator sees one [malloc(64)] and one [free] of the pointer it
    returned, and nothing else. *)
Theorem reallocations_one_iteration (w : world H) :
  exists p evs r w',
    benchmark_reallocations P 1 w = Returned (r, w') /\
    operations r = 1 /\
    trace w' = trace w ++ evs /\
    evs = [EvMalloc 64 p; EvFree p] /\
    resize_steps evs = 0%nat /\
    allocated evs = [p] /\ freed evs = [p].
Proof.
  destruct (reallocations_returns P 1 w) as (p & qs & h' & Hlen & Heq).
  destruct qs as [| q qs]; [|discriminate Hlen].
  exists p, [EvMalloc 64 p; EvFree p]. rewrite Heq.
  do 2 eexists. repeat split.
Qed.

(** C9. With [N = 0] the reallocation workload still performs one 64-byte
    allocation and one free of it, and reports zero operations. *)
Theorem reallocations_zero_iterations (w : world H) :
  exists p evs r w',
    benchmark_reallocations P 0 w = Returned (r, w') /\
    operations r = 0 /\
    trace w' = trace w ++ evs /\
    evs = [EvMalloc 64 p; EvFree p].
Proof.
  destruct (reallocations_returns P 0 w) as (p & qs & h' & Hlen & Heq).
  destruct qs as [| q qs]; [|discriminate Hlen].
  exists p, [EvMalloc 64 p; EvFree p]. rewrite Heq.
  do 2 eexists. repeat split.
Qed.

(** C6. For every iteration count [N] its vector can hold, the mixed-sizes
    workload makes [N] allocation requests, the [k]-th of size
    [sizes[k mod 10]] from the table 16, 32, ..., 8192, and then frees the
    pointers it was given in exactly the reverse of allocation order. *)
Theorem mixed_sizes_cycle_and_reverse (N : Z) (w : world H) :
  0 <= N <= max_size_ptr P ->
  exists ps evs r w',
    benchmark_mixed_sizes P N w = Returned (r, w') /\
    trace w' = trace w ++ evs /\
    List.length ps = Z.to_nat N /\
    evs = malloc_events (fun i => nth (Z.to_nat (i mod 10)) sizes 0) 0 ps
            ++ map EvFree (rev ps) /\
    (forall k p, nth_error ps k = Some p ->
       nth_error evs k
       = Some (EvMalloc (nth (Z.to_nat (Z.of_nat k mod 10))
                             [16; 32; 64; 128; 256; 512; 1024; 2048; 4096; 8192] 0) p)) /\
    allocated evs = ps /\
    freed evs = rev (allocated evs).
Proof.
  intros HN.
  destruct (pointer_workload_returns P "Mixed size allocations"
              (fun i => nth (Z.to_nat (i mod 10)) sizes 0) (@rev ptr) N w HN)
    as (ps & h' & Hlen & Heq).
  exists ps. eexists. do 2 eexists.
  split; [exact Heq|]. cbn [trace].
  split; [reflexivity|]. split; [exact Hlen|]. split; [reflexivity|].
  assert (Ha : allocated (malloc_events (fun i => nth (Z.to_nat (i mod 10)) sizes 0) 0 ps
                          ++ map EvFree (rev ps)) = ps).
  { rewrite allocated_app, allocated_malloc_events, allocated_frees.
    apply app_nil_r. }
  split; [|split].
  - intros k p Hk.
    rewrite nth_error_app1
      by (apply nth_error_Some;
          rewrite (nth_error_malloc_events _ ps 0 k p Hk); discriminate).
    rewrite (nth_error_malloc_events _ ps 0 k p Hk). reflexivity.
  - exact Ha.
  - rewrite Ha. rewrite freed_app, freed_malloc_events, freed_frees. reflexivity.
Qed.

(** C2, as the code has it.  In the raw-allocation workloads (small, medium
    and large blocks) the result of an allocation request is not tested:
    every pointer returned, a null one included, is stored and passed to
    [free] in the deallocation pass, in allocation order; the workload
    completes, and it reports [2N] operations however many requests failed. *)
Theorem raw_allocations_free_and_count_every_request
  (id : workload) (size N : Z) (w : world H) :
  platform_ok P -> fixed_block_size id = Some size -> 0 <= N <= max_size_ptr P ->
  exists ps evs r w',
    run_workload P id N w = Returned (r, w') /\
    trace w' = trace w ++ evs /\
    List.length ps = Z.to_nat N /\
    evs = malloc_events (fun _ => size) 0 ps ++ map EvFree ps /\
    allocated evs = ps /\ freed evs = ps /\
    operations r = 2 * N.
Proof.
  intros Hok Hsize HN.
  destruct (platform_ok_facts P Hok) as (_ & Hp & _).
  assert (Hwrap : wrap64 (N * 2) = 2 * N)
    by (rewrite wrap64_small by (unfold SIZE_MAX in *; lia); lia).
  assert (Hobs : forall ps : list ptr,
             allocated (malloc_events (fun _ => size) 0 ps ++ map EvFree ps) = ps /\
             freed (malloc_events (fun _ => size) 0 ps ++ map EvFree ps) = ps).
  { intros ps. rewrite allocated_app, freed_app, allocated_malloc_events,
      freed_malloc_events, allocated_frees, freed_frees.
    split; [apply app_nil_r | reflexivity]. }
  destruct id; try discriminate Hsize; injection Hsize as <-;
    cbn [run_workload].
  - destruct (pointer_workload_returns P "Small allocations (64 bytes)"
                (fun _ => 64) (fun l => l) N w HN) as (ps & h' & Hlen & Heq).
    exists ps. eexists. do 2 eexists. split; [exact Heq|]. cbn [trace operations].
    destruct (Hobs ps). repeat split; assumption.
  - destruct (pointer_workload_returns P "Medium allocations (1KB)"
                (fun _ => 1024) (fun l => l) N w HN) as (ps & h' & Hlen & Heq).
    exists ps. eexists. do 2 eexists. split; [exact Heq|]. cbn [trace operations].
    destruct (Hobs ps). repeat split; assumption.
  - destruct (pointer_workload_returns P "Large allocations (1MB)"
                (fun _ => 1024 * 1024) (fun l => l) N w HN) as (ps & h' & Hlen & Heq).
    exists ps. eexists. do 2 eexists. split; [exact Heq|]. cbn [trace operations].
    destruct (Hobs ps). repeat split; assumption.
Qed.

End WorkloadClaims.

(** ** The stopwatch and the default run *)


(** [duration_cast<microseconds>] on an interval of either sign: the
    magnitude is cut down to whole microseconds and the sign is kept. *)
Lemma duration_cast_us_truncates (P : platform) (d : Z) :
  0 < ticks_per_us P ->
  Z.abs (duration_cast_us P d) * ticks_per_us P <= Z.abs d
    < (Z.abs (duration_cast_us P d) + 1) * ticks_per_us P /\
  (0 <= d -> 0 <= duration_cast_us P d) /\
  (d <= 0 -> duration_cast_us P d <= 0) /\
  (Z.abs d < ticks_per_us P -> duration_cast_us P d = 0).
Proof.
  intros Htpu. unfold duration_cast_us.
  destruct (Z_le_gt_dec 0 d) as [Hpos | Hneg].
  - rewrite Z.quot_div_nonneg by lia.
    assert (Hq : 0 <= d / ticks_per_us P) by (apply Z.div_pos; lia).
    pose proof (Z.mul_div_le d (ticks_per_us P) Htpu).
    pose proof (Z.mul_succ_div_gt d (ticks_per_us P) Htpu).
    split; [lia|]. split; [intros _; exact Hq|]. split; [intros Hd; lia|].
    intros Hsmall. apply Z.div_small. lia.
  - assert (Hquot : Z.quot d (ticks_per_us P) = - ((- d) / ticks_per_us P)).
    { rewrite <- (Z.quot_div_nonneg (- d)) by lia.
      rewrite <- Z.quot_opp_l by lia. rewrite Z.opp_involutive. reflexivity. }
    rewrite Hquot.
    assert (Hq : 0 <= (- d) / ticks_per_us P) by (apply Z.div_pos; lia).
    pose proof (Z.mul_div_le (- d) (ticks_per_us P) Htpu).
    pose proof (Z.mul_succ_div_gt (- d) (ticks_per_us P) Htpu).
    split; [lia|]. split; [intros Hd; lia|]. split; [intros _; lia|].
    intros Hsmall. rewrite Z.div_small by lia. reflexivity.
Qed.

Section RunClaims.
Context {H : Type} `{Allocator H}.
Variable P : platform.

(** C10, as the code has it.  [elapsed_ms] truncates the elapsed interval
    towards zero to a whole number [us] of microseconds and returns
    [us / 1000.0], so every duration a workload reports is such a quotient for
    an integer [us].  It is non-negative whenever the clock reading at the end
    is not earlier than the one at the start (nothing else makes it so: the
    clock read is [high_resolution_clock]), and it is exactly [0.0] when the
    two readings are less than one microsecond apart. *)
Theorem elapsed_ms_whole_microseconds (w : world H) :
  platform_ok P ->
  (forall t : Timer,
     exists us,
       elapsed_ms P t w
       = Returned (Double.div (Double.of_Z us) Double.thousand,
                   mkWorld (heap w) (trace w) (clock w) (Datatypes.S (reads w))) /\
       Z.abs us * ticks_per_us P <= Z.abs (clock w (reads w) - start_ t)
         < (Z.abs us + 1) * ticks_per_us P /\
       (start_ t <= clock w (reads w) ->
        0 <= us /\
        Double.is_nonneg (Double.div (Double.of_Z us) Double.thousand) = true) /\
       (clock w (reads w) <= start_ t -> us <= 0) /\
       (Z.abs (clock w (reads w) - start_ t) < ticks_per_us P ->
        Double.div (Double.of_Z us) Double.thousand = Double.zero)) /\
  (forall id N r w',
     is_size_t N ->
     run_workload P id N w = Returned (r, w') ->
     exists us,
       duration_ms r = Double.div (Double.of_Z us) Double.thousand /\
       Z.abs us * ticks_per_us P
         <= Z.abs (clock w (Datatypes.S (reads w)) - clock w (reads w))
         < (Z.abs us + 1) * ticks_per_us P /\
       (clock w (reads w) <= clock w (Datatypes.S (reads w)) ->
        0 <= us /\ Double.is_nonneg (duration_ms r) = true) /\
       (clock w (Datatypes.S (reads w)) <= clock w (reads w) -> us <= 0) /\
       (Z.abs (clock w (Datatypes.S (reads w)) - clock w (reads w)) < ticks_per_us P ->
        duration_ms r = Double.zero)).
Proof.
  intros Hok.
  destruct (platform_ok_facts P Hok) as (Htpu & _).
  assert (Hgen : forall d,
            Z.abs (duration_cast_us P d) * ticks_per_us P <= Z.abs d
              < (Z.abs (duration_cast_us P d) + 1) * ticks_per_us P /\
            (0 <= d ->
             0 <= duration_cast_us P d /\
             Double.is_nonneg (Double.div (Double.of_Z (duration_cast_us P d))
                                          Double.thousand) = true) /\
            (d <= 0 -> duration_cast_us P d <= 0) /\
            (Z.abs d < ticks_per_us P ->
             Double.div (Double.of_Z (duration_cast_us P d)) Double.thousand
             = Double.zero)).
  { intros d.
    destruct (duration_cast_us_truncates P d Htpu) as (Hb & Hpos & Hneg & Hsmall).
    split; [exact Hb|]. split; [|split; [exact Hneg|]].
    - intros Hd. split; [exact (Hpos Hd)|].
      apply has_sign_false_is_nonneg, div_thousand_nonneg, of_Z_nonneg. exact (Hpos Hd).
    - intros Hd. rewrite (Hsmall Hd). reflexivity. }
  split.
  - intros t.
    exists (duration_cast_us P (clock w (reads w) - start_ t)).
    split; [reflexivity|].
    destruct (Hgen (clock w (reads w) - start_ t)) as (Hb & Hpos & Hneg & Hsmall).
    split; [exact Hb|]. split; [intros Ht; apply Hpos; lia|].
    split; [intros Ht; apply Hneg; lia | exact Hsmall].
  - intros id N r w' [Hlo Hhi] Hrun.
    destruct (Z_le_gt_dec N (capacity P id)) as [Hfit | Hover].
    + destruct (workload_returns P id N w Hok (conj Hlo Hfit) Hhi) as (evs & h' & Heq).
      rewrite Hrun in Heq. injection Heq as -> _. cbn [duration_ms].
      exists (duration_cast_us P (clock w (Datatypes.S (reads w)) - clock w (reads w))).
      split; [reflexivity|].
      destruct (Hgen (clock w (Datatypes.S (reads w)) - clock w (reads w)))
        as (Hb & Hpos & Hneg & Hsmall).
      split; [exact Hb|]. split; [intros Ht; apply Hpos; lia|].
      split; [intros Ht; apply Hneg; lia | exact Hsmall].
    + rewrite workload_throws in Hrun by (assumption || lia). discriminate.
Qed.

(** The body of [run_benchmark] at any iteration count the three vectors can
    hold: seven results in the fixed order, each timed by its own stopwatch
    (two clock readings per workload), the large-allocation workload run with
    a tenth of the count. *)
Lemma run_benchmark_with_returns (N : Z) (w : world H) :
  platform_ok P ->
  0 <= N -> N <= max_size_ptr P -> N <= max_size_string P -> N <= max_size_int P ->
  exists rep w',
    run_benchmark_with P N w = Returned (rep, w') /\
    results rep
    = [mkResult "Small allocations (64 bytes)"
                (measured P (clock w) (reads w)) (2 * N);
       mkResult "Medium allocations (1KB)"
                (measured P (clock w) (2 + reads w)) (2 * N);
       mkResult "Large allocations (1MB)"
                (measured P (clock w) (4 + reads w)) (2 * (N / 10));
       mkResult "Mixed size allocations"
                (measured P (clock w) (6 + reads w)) (2 * N);
       mkResult "Reallocations"
                (measured P (clock w) (8 + reads w)) N;
       mkResult "String operations"
                (measured P (clock w) (10 + reads w)) (3 * N);
       mkResult "Vector growth"
                (measured P (clock w) (12 + reads w)) N] /\
    rows rep = map print_result (results rep).
Proof.
  intros Hok Hnat Hp Hs Hi.
  destruct (platform_ok_facts P Hok) as (_ & (_ & Hp8) & _).
  assert (Hsz : N <= SIZE_MAX) by lia.
  assert (Hdiv : 0 <= N / 10 <= N)
    by (split; [apply Z.div_pos; lia | apply Z.div_le_upper_bound; lia]).
  unfold run_benchmark_with.
  destruct (workload_returns P Small N w Hok) as (e1 & h1 & E1);
    [cbn [capacity]; lia | lia |].
  cbn [run_workload] in E1. rewrite (bind_returned _ _ _ _ _ E1). clear E1.
  match goal with |- context [bind _ _ ?w1] =>
    destruct (workload_returns P Medium N w1 Hok) as (e2 & h2 & E2);
      [cbn [capacity]; lia | lia |] end.
  cbn [run_workload clock reads trace] in E2. rewrite (bind_returned _ _ _ _ _ E2). clear E2.
  match goal with |- context [bind _ _ ?w1] =>
    destruct (workload_returns P Large (N / 10) w1 Hok) as (e3 & h3 & E3);
      [cbn [capacity]; lia | lia |] end.
  cbn [run_workload clock reads trace] in E3. rewrite (bind_returned _ _ _ _ _ E3). clear E3.
  match goal with |- context [bind _ _ ?w1] =>
    destruct (workload_returns P Mixed N w1 Hok) as (e4 & h4 & E4);
      [cbn [capacity]; lia | lia |] end.
  cbn [run_workload clock reads trace] in E4. rewrite (bind_returned _ _ _ _ _ E4). clear E4.
  match goal with |- context [bind _ _ ?w1] =>
    destruct (workload_returns P Reallocations N w1 Hok) as (e5 & h5 & E5);
      [cbn [capacity]; lia | lia |] end.
  cbn [run_workload clock reads trace] in E5. rewrite (bind_returned _ _ _ _ _ E5). clear E5.
  match goal with |- context [bind _ _ ?w1] =>
    destruct (workload_returns P Strings N w1 Hok) as (e6 & h6 & E6);
      [cbn [capacity]; lia | lia |] end.
  cbn [run_workload clock reads trace] in E6. rewrite (bind_returned _ _ _ _ _ E6). clear E6.
  match goal with |- context [bind _ _ ?w1] =>
    destruct (workload_returns P Growth N w1 Hok) as (e7 & h7 & E7);
      [cbn [capacity]; lia | lia |] end.
  cbn [run_workload clock reads trace] in E7. rewrite (bind_returned _ _ _ _ _ E7). clear E7.
  cbn [app nth row_names documented_operations].
  match goal with |- context [totals ?rs] => destruct (totals rs) as [tt_ to_] end.
  do 2 eexists. split; [reflexivity|]. split; reflexivity.
Qed.


(** C7. For every base iteration count [N], the default run is the schedule
    that invokes the large-allocation workload with [N / 10] iterations and
    every other workload with [N], in the fixed order, and reports on the
    results in that order; the operations it reports are those of these
    counts. *)
Theorem default_run_follows_schedule (N : Z) (w : world H) :
  run_benchmark_with P N w
  = bind (run_schedule P (default_schedule N) [])
         (fun rs => ret (report_of N rs)) w /\
  map fst (default_schedule N)
  = [Small; Medium; Large; Mixed; Reallocations; Strings; Growth] /\
  (forall id n, In (id, n) (default_schedule N) ->
                n = match id with Large => N / 10 | _ => N end) /\
  run_benchmark P w = run_benchmark_with P 10000 w /\
  (platform_ok P ->
   0 <= N -> N <= max_size_ptr P -> N <= max_size_string P -> N <= max_size_int P ->
   exists rep w',
     run_benchmark_with P N w = Returned (rep, w') /\
     map operations (results rep)
     = map (fun job => documented_operations (fst job) (snd job)) (default_schedule N)).
Proof.
  split; [|split; [reflexivity|split; [|split; [reflexivity|]]]].
  - unfold run_benchmark_with, default_schedule.
    cbn [run_schedule run_workload app]. unfold bind.
    repeat match goal with
           | |- context [match ?m ?n ?w0 with Returned _ => _ | Thrown _ => _ end] =>
               destruct (m n w0) as [[? ?] | ?]; try reflexivity
           end.
  - intros id n Hin. cbn [default_schedule In] in Hin.
    repeat (destruct Hin as [Hin | Hin]; [injection Hin as <- <-; reflexivity|]).
    contradiction.
  - intros Hok Hnat Hp Hs Hi.
    destruct (run_benchmark_with_returns N w Hok Hnat Hp Hs Hi)
      as (rep & w' & Hrun & Hres & _).
    exists rep, w'. split; [exact Hrun|]. rewrite Hres. reflexivity.
Qed.

End RunClaims.

(** ** Throughput *)

Lemma eqb_zero_inv (x : spec_float) :
  Double.eqb x Double.zero = true -> exists s, x = S754_zero s.
Proof.
  destruct x as [s | s | | s m e]; cbn; intros Hx; try discriminate.
  - eauto.
  - destruct s; discriminate.
  - destruct s; discriminate.
Qed.

(** [n / 0.0 * 1000.0] for an integer [n] of the range of [size_t]. *)
Lemma throughput_at_zero (n : Z) (s : bool) :
  0 <= n <= SIZE_MAX ->
  (0 < n ->
   Double.mul (Double.div (Double.of_Z n) (S754_zero s)) Double.thousand
   = S754_infinity s) /\
  (n = 0 ->
   Double.mul (Double.div (Double.of_Z n) (S754_zero s)) Double.thousand
   = Double.nan).
Proof.
  intros Hn. split.
  - intros Hpos. destruct (of_Z_pos_finite n) as (m & e & ->); [lia|].
    destruct s; reflexivity.
  - intros ->. reflexivity.
Qed.

(** C1, as the code has it.  For every result, [ops_per_second] is
    [operations / duration_ms * 1000] in double precision, whatever the
    duration: there is no guard for a zero duration.  When [duration_ms == 0]
    the value is not 0: it is the infinity of the sign of that zero when
    [operations > 0], and a NaN when [operations == 0]. *)
Theorem ops_per_second_unguarded (r : BenchmarkResult) :
  is_size_t (operations r) ->
  ops_per_second r
  = Double.mul (Double.div (Double.of_Z (operations r)) (duration_ms r))
               Double.thousand /\
  (Double.eqb (duration_ms r) Double.zero = true ->
   Double.eqb (ops_per_second r) Double.zero = false /\
   (0 < operations r ->
    exists s, duration_ms r = S754_zero s /\ ops_per_second r = S754_infinity s) /\
   (operations r = 0 -> ops_per_second r = Double.nan)).
Proof.
  intros Hops. split; [reflexivity|].
  intros Hzero. destruct (eqb_zero_inv _ Hzero) as (s & Hd).
  unfold ops_per_second. rewrite Hd.
  destruct (throughput_at_zero (operations r) s Hops) as (Hinf & Hnan).
  split; [|split].
  - destruct (Z.eq_dec (operations r) 0) as [E | E].
    + rewrite (Hnan E). reflexivity.
    + rewrite Hinf by (unfold is_size_t in Hops; lia). destruct s; reflexivity.
  - intros Hpos. exists s. split; [reflexivity | exact (Hinf Hpos)].
  - exact Hnan.
Qed.

Lemma totals_fold (rs : list BenchmarkResult) :
  forall (t : Double.double) (o : Z),
    fold_left accumulate rs (t, wrap64 o)
    = (fold_left Double.add (map duration_ms rs) t,
       wrap64 (fold_left Z.add (map operations rs) o)).
Proof.
  induction rs as [| r rs IH]; intros t o; [reflexivity|].
  cbn [fold_left map]. unfold accumulate at 2. cbn [fst snd].
  replace (wrap64 (wrap64 o + operations r)) with (wrap64 (o + operations r))
    by (unfold wrap64; rewrite Zplus_mod_idemp_l; reflexivity).
  apply IH.
Qed.

(** C5, as the code has it.  For every sequence of results the reporter's
    [total_time] is the sum of the durations, added left to right in double
    precision, and its [total_ops] is the sum of the operations in [size_t]
    arithmetic, equal to the exact sum whenever that fits; the overall
    throughput is [total_ops / total_time * 1000] with no guard for a zero
    total, as for [ops_per_second]: when [total_time == 0] it is an infinity
    for a positive [total_ops] and a NaN for [total_ops == 0]. *)
Theorem reporter_totals_unguarded (rs : list BenchmarkResult) :
  fst (totals rs) = sum_durations rs /\
  snd (totals rs) = sum_operations rs mod 2 ^ 64 /\
  (0 <= sum_operations rs <= SIZE_MAX -> snd (totals rs) = sum_operations rs) /\
  average (snd (totals rs)) (fst (totals rs))
  = Double.mul (Double.div (Double.of_Z (snd (totals rs))) (fst (totals rs)))
               Double.thousand /\
  (Double.eqb (fst (totals rs)) Double.zero = true ->
   Double.eqb (average (snd (totals rs)) (fst (totals rs))) Double.zero = false /\
   (0 < snd (totals rs) ->
    exists s, fst (totals rs) = S754_zero s /\
              average (snd (totals rs)) (fst (totals rs)) = S754_infinity s) /\
   (snd (totals rs) = 0 ->
    average (snd (totals rs)) (fst (totals rs)) = Double.nan)).
Proof.
  assert (Htot : totals rs = (sum_durations rs, wrap64 (sum_operations rs))).
  { unfold totals. change 0 with (wrap64 0) at 1. apply totals_fold. }
  rewrite Htot. cbn [fst snd].
  assert (Hrange : 0 <= wrap64 (sum_operations rs) <= SIZE_MAX).
  { unfold wrap64, SIZE_MAX.
    pose proof (Z.mod_pos_bound (sum_operations rs) (2 ^ 64)). lia. }
  split; [reflexivity|]. split; [reflexivity|].
  split; [intros Hfit; apply wrap64_small; exact Hfit|].
  split; [reflexivity|].
  intros Hzero. destruct (eqb_zero_inv _ Hzero) as (s & Hd).
  unfold average. rewrite Hd.
  destruct (throughput_at_zero (wrap64 (sum_operations rs)) s Hrange) as (Hinf & Hnan).
  split; [|split].
  - destruct (Z.eq_dec (wrap64 (sum_operations rs)) 0) as [E | E].
    + rewrite (Hnan E). reflexivity.
    + rewrite Hinf by lia. destruct s; reflexivity.
  - intros Hpos. exists s. split; [reflexivity | exact (Hinf Hpos)].
  - exact Hnan.
Qed.

(** ** The claims on concrete runs *)

Lemma test_clock_monotonic (room : Z) : monotonic (clock (test_world room)).
Proof. intros i. cbn [test_world clock]. lia. Defined.

Lemma libstdcxx_lp64_holds_default_run : holds_default_run libstdcxx_lp64.
Proof. unfold holds_default_run. cbn. lia. Defined.

(** C1 fails as stated.  A result with [duration_ms == 0] and 20000
    operations has an infinite [ops_per_second], not 0; with no operation at
    all it is a NaN. *)
Lemma ops_per_second_zero_duration_is_not_zero :
  Double.eqb (duration_ms instant_result) Double.zero = true /\
  ops_per_second instant_result = Double.pos_infinity /\
  Double.eqb (ops_per_second instant_result) Double.zero = false /\
  Double.eqb (duration_ms idle_result) Double.zero = true /\
  ops_per_second idle_result = Double.nan /\
  Double.eqb (ops_per_second idle_result) Double.zero = false.
Proof. vm_compute. repeat split. Qed.

Lemma ops_per_second_unguarded_witness :
  is_size_t (operations instant_result) /\
  exists s, duration_ms instant_result = S754_zero s /\
            ops_per_second instant_result = S754_infinity s.
Proof.
  assert (Hops : is_size_t (operations instant_result))
    by (unfold is_size_t, SIZE_MAX; cbn; lia).
  split; [exact Hops|].
  destruct (ops_per_second_unguarded instant_result Hops) as (_ & Hzero).
  destruct (Hzero eq_refl) as (_ & Hinf & _).
  apply Hinf. cbn. lia.
Defined.

(** C2 fails as stated.  With room for one 64-byte block only, the second
    request of the small-allocation workload run with [count = 2] returns
    null; the null pointer is passed to [free] all the same, and the workload
    reports 4 operations although a single allocation succeeded. *)
Lemma small_allocations_free_and_count_a_failed_request :
  match benchmark_small_allocations libstdcxx_lp64 2 (test_world 100) with
  | Returned (r, w') =>
      trace w' = [EvMalloc 64 4096; EvMalloc 64 null; EvFree 4096; EvFree null] /\
      In null (freed (trace w')) /\
      operations r = 4 /\
      operations r <> 2 * Z.of_nat (List.length (filter (fun p => negb (p =? null))
                                                    (allocated (trace w'))))
  | Thrown _ => False
  end.
Proof. vm_compute. repeat split; try (right; left; reflexivity); discriminate. Qed.

(** [demonstrate_raw_allocation] of main.cpp, by contrast, tests the pointer:
    with room for two blocks it frees those two and never frees null. *)
Example demonstrate_raw_allocation_skips_null :
  match demonstrate_raw_allocation libstdcxx_lp64 (test_world 3000) with
  | Returned (n, w') =>
      n = 2 /\ freed (trace w') = [4096; 5120] /\
      List.length (allocated (trace w')) = 100%nat
  | Thrown _ => False
  end.
Proof. vm_compute. repeat split. Qed.

Lemma raw_allocations_free_and_count_every_request_witness :
  platform_ok libstdcxx_lp64 /\ fixed_block_size Small = Some 64 /\
  0 <= 2 <= max_size_ptr libstdcxx_lp64 /\
  exists ps evs r w',
    run_workload libstdcxx_lp64 Small 2 (test_world 100) = Returned (r, w') /\
    trace w' = trace (test_world 100) ++ evs /\
    List.length ps = Z.to_nat 2 /\
    evs = malloc_events (fun _ => 64) 0 ps ++ map EvFree ps /\
    allocated evs = ps /\ freed evs = ps /\
    operations r = 2 * 2.
Proof.
  assert (Hok : platform_ok libstdcxx_lp64) by reflexivity.
  assert (Hfit : 0 <= 2 <= max_size_ptr libstdcxx_lp64) by (cbn; lia).
  split; [exact Hok|]. split; [reflexivity|]. split; [exact Hfit|].
  exact (raw_allocations_free_and_count_every_request
           libstdcxx_lp64 Small 64 2 (test_world 100) Hok eq_refl Hfit).
Defined.



Lemma operations_follow_documented_formula_witness :
  platform_ok libstdcxx_lp64 /\ is_size_t 10000 /\
  exists r w',
    run_workload libstdcxx_lp64 Strings 10000 (test_world 0) = Returned (r, w') /\
    operations r = documented_operations Strings 10000.
Proof.
  assert (Hok : platform_ok libstdcxx_lp64) by reflexivity.
  assert (Hsz : is_size_t 10000) by (unfold is_size_t, SIZE_MAX; lia).
  split; [exact Hok|]. split; [exact Hsz|].
  apply (operations_follow_documented_formula
           libstdcxx_lp64 Strings 10000 (test_world 0) Hok Hsz).
  cbn. lia.
Defined.

(** C5 fails as stated.  A zero total duration gives an infinite average,
    not 0; and two operation counts of [2^63] add up to 0 in [size_t]. *)
Lemma average_zero_total_is_not_zero :
  totals [instant_result; idle_result] = (Double.zero, 20000) /\
  average 20000 Double.zero = Double.pos_infinity /\
  Double.eqb (average 20000 Double.zero) Double.zero = false /\
  snd (totals [huge_result; huge_result]) = 0 /\
  sum_operations [huge_result; huge_result] = 2 ^ 64.
Proof. vm_compute. repeat split. Qed.

Lemma reporter_totals_unguarded_witness :
  Double.eqb (fst (totals [instant_result; idle_result])) Double.zero = true /\
  0 < snd (totals [instant_result; idle_result]) /\
  exists s,
    fst (totals [instant_result; idle_result]) = S754_zero s /\
    average (snd (totals [instant_result; idle_result]))
            (fst (totals [instant_result; idle_result])) = S754_infinity s.
Proof.
  assert (Hzero : Double.eqb (fst (totals [instant_result; idle_result]))
                             Double.zero = true) by reflexivity.
  assert (Hpos : 0 < snd (totals [instant_result; idle_result]))
    by (vm_compute; reflexivity).
  split; [exact Hzero|]. split; [exact Hpos|].
  destruct (reporter_totals_unguarded [instant_result; idle_result])
    as (_ & _ & _ & _ & Hguard).
  destruct (Hguard Hzero) as (_ & Hinf & _).
  exact (Hinf Hpos).
Defined.

Lemma mixed_sizes_cycle_and_reverse_witness :
  0 <= 12 <= max_size_ptr libstdcxx_lp64 /\
  exists ps evs r w',
    benchmark_mixed_sizes libstdcxx_lp64 12 (test_world 100000) = Returned (r, w') /\
    trace w' = trace (test_world 100000) ++ evs /\
    List.length ps = Z.to_nat 12 /\
    allocated evs = ps /\
    freed evs = rev (allocated evs).
Proof.
  assert (Hfit : 0 <= 12 <= max_size_ptr libstdcxx_lp64) by (cbn; lia).
  split; [exact Hfit|].
  destruct (mixed_sizes_cycle_and_reverse libstdcxx_lp64 12 (test_world 100000) Hfit)
    as (ps & evs & r & w' & Hrun & Htr & Hlen & _ & _ & Ha & Hf).
  exists ps, evs, r, w'. repeat split; assumption.
Defined.

Lemma default_run_follows_schedule_witness :
  In (Large, 1000) (default_schedule 10000) /\ 1000 = 10000 / 10 /\
  platform_ok libstdcxx_lp64 /\
  exists rep w',
    run_benchmark_with libstdcxx_lp64 10000 (test_world 0) = Returned (rep, w') /\
    map operations (results rep)
    = [20000; 20000; 2000; 20000; 10000; 30000; 10000].
Proof.
  assert (Hin : In (Large, 1000) (default_schedule 10000))
    by (cbn; right; right; left; reflexivity).
  assert (Hok : platform_ok libstdcxx_lp64) by reflexivity.
  destruct (default_run_follows_schedule libstdcxx_lp64 10000 (test_world 0))
    as (_ & _ & Hsched & _ & Hruns).
  split; [exact Hin|]. split; [exact (Hsched Large 1000 Hin)|].
  split; [exact Hok|].
  apply (Hruns Hok); cbn; lia.
Defined.

(** C10 fails as stated.  On the same clock the container-growth workload
    run with three iterations reports -4 / 1000.0 ms, which is negative; so
    does a stopwatch started at 5000 ticks and read at 1000. *)
Lemma container_growth_reports_a_negative_duration :
  match benchmark_container_growth libstdcxx_lp64 3 stepping_back_world with
  | Returned (r, _) =>
      duration_ms r = Double.div (Double.of_Z (-4)) Double.thousand /\
      Double.is_nonneg (duration_ms r) = false
  | Thrown _ => False
  end /\
  match elapsed_ms libstdcxx_lp64 (mkTimer 5000) (test_world 0) with
  | Returned (ms, _) =>
      ms = Double.div (Double.of_Z (-4)) Double.thousand /\
      Double.is_nonneg ms = false
  | Thrown _ => False
  end.
Proof. vm_compute. repeat split. Qed.

Lemma elapsed_ms_whole_microseconds_witness :
  platform_ok libstdcxx_lp64 /\ is_size_t 3 /\
  exists r w' us,
    run_workload libstdcxx_lp64 Growth 3 (test_world 0) = Returned (r, w') /\
    duration_ms r = Double.div (Double.of_Z us) Double.thousand /\
    0 <= us /\ Double.is_nonneg (duration_ms r) = true.
Proof.
  assert (Hok : platform_ok libstdcxx_lp64) by reflexivity.
  assert (Hsz : is_size_t 3) by (unfold is_size_t, SIZE_MAX; lia).
  split; [exact Hok|]. split; [exact Hsz|].
  destruct (elapsed_ms_whole_microseconds libstdcxx_lp64 (test_world 0) Hok)
    as (_ & Hw).
  destruct (Hw Growth 3 _ _ Hsz eq_refl) as (us & Hd & _ & Hfwd & _).
  destruct Hfwd as (Hus & Hnn); [cbn; lia|].
  do 2 eexists. exists us. split; [reflexivity|].
  split; [exact Hd|]. split; [exact Hus | exact Hnn].
Defined.

(** * Further properties *)

(** ** Signs in binary64 arithmetic *)

Lemma binary_normalize_nonneg (m e : Z) :
  0 <= m -> has_sign false (binary_normalize 53 1024 m e false).
Proof.
  intros Hm. destruct m as [| p | p]; try lia; [reflexivity|].
  unfold binary_normalize, binary_round.
  destruct (shl_align p e _) as [mz ez].
  apply binary_round_aux_sign. lia.
Qed.

Lemma binary_normalize_nonpos (m e : Z) :
  m < 0 -> has_sign true (binary_normalize 53 1024 m e false).
Proof.
  intros Hm. destruct m as [| p | p]; try lia.
  unfold binary_normalize, binary_round.
  destruct (shl_align p e _) as [mz ez].
  apply binary_round_aux_sign. lia.
Qed.

(** The quotient by a finite divisor is a number whose sign is the product
    of the signs. *)
Lemma div_finite_sign (sx sy : bool) (x : spec_float) (my : positive) (ey : Z) :
  has_sign sx x ->
  has_sign (xorb sx sy) (Double.div x (S754_finite sy my ey)).
Proof.
  destruct x as [s | s | | s m e]; cbn [has_sign]; intros Hs; subst;
    try reflexivity; try contradiction.
  unfold Double.div, SFdiv.
  destruct (SFdiv_core_binary _ _ _ _ _ _) as [[mz ez] lz] eqn:E.
  apply binary_round_aux_sign.
  unfold SFdiv_core_binary in E.
  match type of E with
  | (let '(q, r) := Z.div_eucl ?a ?b in _) = _ =>
      pose proof (Z.div_pos a b) as Hq; unfold Z.div in Hq;
      destruct (Z.div_eucl a b) as [q r] eqn:Eq
  end.
  injection E as <- _ _. apply Hq; [|lia].
  match goal with
  | |- 0 <= match ?s with _ => _ end => destruct s; try lia
  end.
  apply Z.shiftl_nonneg. lia.
Qed.

Lemma mul_thousand_sign (s : bool) (x : spec_float) :
  has_sign s x -> has_sign s (Double.mul x Double.thousand).
Proof.
  destruct x as [sx | sx | | sx m e]; cbn [has_sign]; intros Hs; subst;
    try contradiction.
  - destruct s; reflexivity.
  - destruct s; reflexivity.
  - unfold Double.mul, Double.thousand, SFmul.
    destruct s; cbn [xorb]; apply binary_round_aux_sign; lia.
Qed.

(** The sum of two non-negative numbers is a non-negative number. *)
Lemma add_nonneg (x y : spec_float) :
  has_sign false x -> has_sign false y -> has_sign false (Double.add x y).
Proof.
  destruct x as [sx | sx | | sx mx ex]; destruct y as [sy | sy | | sy my ey];
    cbn [has_sign]; intros Hx Hy; subst; try contradiction; try reflexivity.
  unfold Double.add, SFadd. cbn [cond_Zopp].
  apply binary_normalize_nonneg. lia.
Qed.

Lemma sum_durations_nonneg (rs : list BenchmarkResult) :
  Forall (fun r => has_sign false (duration_ms r)) rs ->
  has_sign false (sum_durations rs).
Proof.
  unfold sum_durations.
  assert (Hgen : forall t, has_sign false t ->
            Forall (fun r => has_sign false (duration_ms r)) rs ->
            has_sign false (fold_left Double.add (map duration_ms rs) t)).
  { induction rs as [| r rs IH]; intros t Ht Hall; [exact Ht|].
    inversion Hall as [| ? ? Hr Hrest]; subst. cbn [map fold_left].
    apply IH; [apply add_nonneg; assumption | exact Hrest]. }
  apply Hgen. reflexivity.
Qed.

(** [n / d * 1000.0] for a [size_t] [n > 0] and a non-negative [d]: never a
    NaN, never negative. *)
Lemma throughput_nonneg (n : Z) (d : spec_float) :
  0 < n <= SIZE_MAX -> has_sign false d ->
  has_sign false (Double.mul (Double.div (Double.of_Z n) d) Double.thousand).
Proof.
  intros Hn Hd. apply mul_thousand_sign.
  destruct (of_Z_pos_finite n Hn) as (m & e & ->).
  destruct d as [s | s | | s md ed]; cbn [has_sign] in Hd; subst;
    try contradiction; try reflexivity.
  apply (div_finite_sign false false (S754_finite false m e) md ed). reflexivity.
Qed.

(** ** Throughput, totals, stopwatch and greeting *)

Lemma has_sign_not_nan (s : bool) (x : spec_float) :
  has_sign s x -> is_nan x = false.
Proof. destruct x; cbn; intros Hs; try reflexivity; contradiction. Qed.

(** [n / d * 1000.0] for a [size_t] [n] and a number [d] of sign [s]: a NaN
    for [0 / 0], and a number of sign [s] otherwise. *)
Lemma throughput_cases (n : Z) (d : spec_float) (s : bool) :
  0 <= n <= SIZE_MAX -> has_sign s d ->
  (n = 0 /\ is_zero d = true /\
   Double.mul (Double.div (Double.of_Z n) d) Double.thousand = Double.nan) \/
  ((0 < n \/ is_zero d = false) /\
   has_sign s (Double.mul (Double.div (Double.of_Z n) d) Double.thousand)).
Proof.
  intros Hn Hd.
  destruct (Z.eq_dec n 0) as [-> | Hpos].
  - destruct d as [sd | sd | | sd md ed]; cbn [has_sign] in Hd; subst;
      try contradiction.
    + left. repeat split.
    + right. split; [right; reflexivity | destruct s; reflexivity].
    + right. split; [right; reflexivity | destruct s; reflexivity].
  - right. split; [left; lia|].
    apply mul_thousand_sign.
    destruct (of_Z_pos_finite n) as (m & e & ->); [lia|].
    destruct d as [sd | sd | | sd md ed]; cbn [has_sign] in Hd; subst;
      try contradiction; try (destruct s; reflexivity).
    apply (div_finite_sign false s (S754_finite false m e) md ed). reflexivity.
Qed.

(** X4. [ops_per_second] is a NaN exactly when the duration is a NaN or the
    result has zero operations and a zero duration; in every other case it is
    a number (finite or infinite) with the sign of the duration, so it is
    never negative for a non-negative duration. *)
Theorem ops_per_second_nan_iff (r : BenchmarkResult) :
  is_size_t (operations r) ->
  (is_nan (ops_per_second r) = true <->
   is_nan (duration_ms r) = true \/
   (operations r = 0 /\ is_zero (duration_ms r) = true)) /\
  (forall s, has_sign s (duration_ms r) ->
             is_nan (ops_per_second r) = false ->
             has_sign s (ops_per_second r)).
Proof.
  intros Hops. unfold ops_per_second.
  destruct (duration_ms r) as [sd | sd | | sd md ed] eqn:Hd.
  - destruct (throughput_cases (operations r) (S754_zero sd) sd Hops eq_refl)
      as [(H0 & _ & Hnan) | (Hcase & Hsign)].
    + rewrite Hnan. split.
      * split; [intros _; right; split; [exact H0 | reflexivity] | reflexivity].
      * intros s _ Habs. discriminate Habs.
    + rewrite (has_sign_not_nan _ _ Hsign). split.
      * split; [discriminate|].
        intros [Habs | (H0 & _)]; [discriminate Habs|].
        destruct Hcase as [Hpos | Hz]; [lia | discriminate Hz].
      * intros s Hs _. cbn [has_sign] in Hs. subst. exact Hsign.
  - destruct (throughput_cases (operations r) (S754_infinity sd) sd Hops eq_refl)
      as [(_ & Hz & _) | (_ & Hsign)]; [discriminate Hz|].
    rewrite (has_sign_not_nan _ _ Hsign). split.
    + split; [discriminate|].
      intros [Habs | (_ & Habs)]; discriminate Habs.
    + intros s Hs _. cbn [has_sign] in Hs. subst. exact Hsign.
  - split.
    + split; [intros _; left; reflexivity|]. intros _.
      destruct (Double.of_Z (operations r)); reflexivity.
    + intros s Hs. contradiction.
  - destruct (throughput_cases (operations r) (S754_finite sd md ed) sd Hops eq_refl)
      as [(_ & Hz & _) | (_ & Hsign)]; [discriminate Hz|].
    rewrite (has_sign_not_nan _ _ Hsign). split.
    + split; [discriminate|].
      intros [Habs | (_ & Habs)]; discriminate Habs.
    + intros s Hs _. cbn [has_sign] in Hs. subst. exact Hsign.
Qed.

Lemma fold_left_add_shift (l : list Z) :
  forall a, fold_left Z.add l a = a + fold_left Z.add l 0.
Proof.
  induction l as [| x l IH]; intros a; cbn [fold_left]; [lia|].
  rewrite (IH (a + x)), (IH (0 + x)). lia.
Qed.

Lemma sum_operations_cons (r : BenchmarkResult) (rs : list BenchmarkResult) :
  sum_operations (r :: rs) = operations r + sum_operations rs.
Proof.
  unfold sum_operations. cbn [map fold_left]. rewrite fold_left_add_shift. lia.
Qed.

Lemma sum_operations_app (rs1 rs2 : list BenchmarkResult) :
  sum_operations (rs1 ++ rs2) = sum_operations rs1 + sum_operations rs2.
Proof.
  induction rs1 as [| r rs1 IH]; [reflexivity|].
  cbn [app]. rewrite !sum_operations_cons, IH. lia.
Qed.

Lemma sum_operations_perm (rs rs' : list BenchmarkResult) :
  Permutation rs rs' -> sum_operations rs = sum_operations rs'.
Proof.
  induction 1 as [| x l l' _ IH | x y l | l l' l'' _ IH1 _ IH2].
  - reflexivity.
  - rewrite !sum_operations_cons, IH. reflexivity.
  - rewrite !sum_operations_cons. lia.
  - rewrite IH1. exact IH2.
Qed.

Lemma reporter_totals_fst (rs : list BenchmarkResult) :
  fst (totals rs) = sum_durations rs.
Proof.
  unfold totals. change 0 with (wrap64 0) at 1. rewrite totals_fold. reflexivity.
Qed.

Lemma totals_snd (rs : list BenchmarkResult) :
  snd (totals rs) = wrap64 (sum_operations rs).
Proof.
  unfold totals. change 0 with (wrap64 0) at 1. rewrite totals_fold. reflexivity.
Qed.

(** X5. The reporter's [total_ops] does not depend on the order of the
    results, and the total of any two sequences put end to end is the sum, in
    [size_t], of their totals. *)
Theorem total_ops_order_independent (rs rs' : list BenchmarkResult) :
  (Permutation rs rs' -> snd (totals rs) = snd (totals rs')) /\
  snd (totals (rs ++ rs')) = wrap64 (snd (totals rs) + snd (totals rs')).
Proof.
  rewrite !totals_snd. split.
  - intros Hperm. rewrite (sum_operations_perm rs rs' Hperm). reflexivity.
  - rewrite sum_operations_app. unfold wrap64.
    rewrite <- Zplus_mod. reflexivity.
Qed.

Section StopwatchEdges.
Context {H : Type} `{Allocator H}.
Variable P : platform.

(** X7. A stopwatch read on a clock that ran backwards: the interval is
    truncated towards zero, so a step back of less than one microsecond reads
    as exactly [0.0], and a step back of one microsecond or more reads as a
    whole negative number of microseconds, with the sign bit set. *)
Theorem elapsed_ms_backwards_clock (t : Timer) (w : world H) :
  platform_ok P ->
  clock w (reads w) < start_ t ->
  exists us,
    elapsed_ms P t w
    = Returned (Double.div (Double.of_Z us) Double.thousand,
                mkWorld (heap w) (trace w) (clock w) (Datatypes.S (reads w))) /\
    us <= 0 /\
    (us - 1) * ticks_per_us P < clock w (reads w) - start_ t <= us * ticks_per_us P /\
    (start_ t - clock w (reads w) < ticks_per_us P ->
     Double.div (Double.of_Z us) Double.thousand = Double.zero) /\
    (ticks_per_us P <= start_ t - clock w (reads w) ->
     us <= -1 /\ has_sign true (Double.div (Double.of_Z us) Double.thousand)).
Proof.
  intros Hok Hback.
  destruct (platform_ok_facts P Hok) as (Htpu & _).
  set (d := start_ t - clock w (reads w)).
  assert (Hd : 0 < d) by (unfold d; lia).
  exists (- (d / ticks_per_us P)).
  assert (Hq : duration_cast_us P (clock w (reads w) - start_ t)
               = - (d / ticks_per_us P)).
  { unfold duration_cast_us.
    replace (clock w (reads w) - start_ t) with (- d) by (unfold d; lia).
    rewrite Z.quot_opp_l by lia. rewrite Z.quot_div_nonneg by lia. reflexivity. }
  assert (Hdiv : 0 <= d / ticks_per_us P) by (apply Z.div_pos; lia).
  pose proof (Z.mul_div_le d (ticks_per_us P) Htpu) as Hlo.
  pose proof (Z.mul_succ_div_gt d (ticks_per_us P) Htpu) as Hhi.
  split; [|split; [lia | split; [|split]]].
  - unfold elapsed_ms, bind, now, ret, ms_of_us. cbn [clock reads heap trace].
    rewrite Hq. reflexivity.
  - fold d. replace (clock w (reads w) - start_ t) with (- d) by (unfold d; lia). nia.
  - intros Hsmall. rewrite Z.div_small by lia. reflexivity.
  - intros Hlarge.
    assert (1 <= d / ticks_per_us P) by (apply Z.div_le_lower_bound; lia).
    split; [lia|].
    unfold Double.thousand.
    match goal with
    | |- has_sign true (Double.div ?x (S754_finite false ?m ?e)) =>
        apply (div_finite_sign true false x m e)
    end.
    apply binary_normalize_nonpos. lia.
Qed.

End StopwatchEdges.

Lemma append_bang_inj (a b : string) :
  (a ++ "!")%string = (b ++ "!")%string -> a = b.
Proof.
  revert b. induction a as [| c a IH]; intros [| c' b] Heq; cbn in Heq.
  - reflexivity.
  - injection Heq as _ Heq. destruct b; discriminate Heq.
  - injection Heq as _ Heq. destruct a; discriminate Heq.
  - injection Heq as -> Heq. f_equal. apply IH. exact Heq.
Qed.

Lemma length_append_bang (a : string) :
  String.length (a ++ "!")%string = Datatypes.S (String.length a).
Proof. induction a as [| c a IH]; [reflexivity|]. cbn. f_equal. exact IH. Qed.

Lemma substring_prefix_append (a s : string) :
  substring 0 (String.length a) (a ++ s)%string = a.
Proof.
  induction a as [| c a IH]; cbn.
  - destruct s; reflexivity.
  - rewrite IH. reflexivity.
Qed.

Lemma substring_suffix_append (a : string) :
  substring (String.length a) 1 (a ++ "!")%string = "!"%string.
Proof. induction a as [| c a IH]; [reflexivity | exact IH]. Qed.

(** X8. [get_greeting name] is ["Hello, "], then the name, then ["!"], so
    the assertion of the repository's test holds ([get_greeting "Test"] is
    ["Hello, Test!"]); the greeting is eight characters longer than the name,
    the name can be read back from it, and two names with the same greeting
    are equal. *)
Theorem get_greeting_injective (a b : string) :
  get_greeting a = ("Hello, " ++ a ++ "!")%string /\
  test_greeting = true /\
  String.length (get_greeting a) = (8 + String.length a)%nat /\
  substring 0 7 (get_greeting a) = "Hello, "%string /\
  substring 7 (String.length a) (get_greeting a) = a /\
  substring (7 + String.length a) 1 (get_greeting a) = "!"%string /\
  (get_greeting a = get_greeting b -> a = b).
Proof.
  split; [reflexivity|]. split; [reflexivity|].
  unfold get_greeting. split; [|split; [|split; [|split]]].
  - cbn. do 7 f_equal. apply length_append_bang.
  - cbn. destruct (a ++ "!")%string; reflexivity.
  - cbn. apply substring_prefix_append.
  - cbn. apply substring_suffix_append.
  - intros Heq. cbn in Heq. repeat (injection Heq as Heq).
    apply append_bang_inj. exact Heq.
Qed.

(** ** Allocator calls of the workloads *)

Lemma malloc_calls_app (xs ys : list event) :
  malloc_calls (xs ++ ys) = malloc_calls xs + malloc_calls ys.
Proof. unfold malloc_calls. rewrite allocated_app, length_app. lia. Qed.

Lemma free_calls_app (xs ys : list event) :
  free_calls (xs ++ ys) = free_calls xs + free_calls ys.
Proof. unfold free_calls. rewrite freed_app, length_app. lia. Qed.

Lemma realloc_calls_app (xs ys : list event) :
  realloc_calls (xs ++ ys) = realloc_calls xs + realloc_calls ys.
Proof.
  unfold realloc_calls, resize_steps. rewrite filter_app, length_app. lia.
Qed.

Lemma realloc_calls_malloc_events (size_of : Z -> Z) (ps : list ptr) :
  forall i0, realloc_calls (malloc_events size_of i0 ps) = 0.
Proof.
  induction ps as [| p ps IH]; intros i0; [reflexivity|]. exact (IH (i0 + 1)).
Qed.

Lemma realloc_calls_frees (ps : list ptr) : realloc_calls (map EvFree ps) = 0.
Proof. induction ps as [| p ps IH]; [reflexivity | exact IH]. Qed.

Lemma calls_realloc_events (qs : list ptr) :
  forall lo p,
    allocated (realloc_events lo p qs) = [] /\
    freed (realloc_events lo p qs) = [] /\
    realloc_calls (realloc_events lo p qs) = Z.of_nat (List.length qs).
Proof.
  induction qs as [| q qs IH]; intros lo p; [repeat split|].
  destruct (IH (lo + 1) q) as (Ha & Hf & Hr). cbn [realloc_events].
  split; [exact Ha | split; [exact Hf|]].
  change (realloc_calls (?e :: ?l)) with (Z.of_nat (Datatypes.S (resize_steps l))).
  unfold realloc_calls in Hr. cbn [List.length]. lia.
Qed.

(** The [k]-th resize step acts on the pointer the previous call returned. *)
Lemma nth_error_realloc_events (qs : list ptr) :
  forall (lo : Z) (p : ptr) (k : nat) (q : ptr),
    nth_error qs k = Some q ->
    nth_error (realloc_events lo p qs) k
    = Some (EvRealloc (nth k (p :: qs) null)
                      (wrap64 (64 * wrap64 (lo + Z.of_nat k + 1))) q).
Proof.
  induction qs as [| q0 qs IH]; intros lo p k q Hk.
  - destruct k; discriminate.
  - destruct k as [| k]; cbn [nth_error realloc_events] in *.
    + injection Hk as ->. cbn [nth]. rewrite Z.add_0_r. reflexivity.
    + rewrite (IH (lo + 1) q0 k q Hk).
      change (nth (Datatypes.S k) (p :: q0 :: qs) null) with (nth k (q0 :: qs) null).
      replace (lo + 1 + Z.of_nat k + 1) with (lo + Z.of_nat (Datatypes.S k) + 1) by lia.
      reflexivity.
Qed.

Section CallClaims.
Context {H : Type} `{Allocator H}.
Variable P : platform.

Lemma checked_malloc_loop (size : Z) (n : nat) :
  forall (i : Z) (ptrs0 : list ptr) (w : world H),
    Z.of_nat (List.length ptrs0) + Z.of_nat n <= max_size_ptr P ->
    exists rs h',
      List.length rs = n /\
      for_from n i
        (fun i ptrs =>
           p <- malloc size ;;
           if p =? null then ret ptrs else push_back (max_size_ptr P) ptrs p)
        ptrs0 w
      = Returned (ptrs0 ++ filter non_null rs,
                  mkWorld h' (trace w ++ malloc_events (fun _ => size) i rs)
                          (clock w) (reads w)).
Proof.
  induction n as [| n IH]; intros i ptrs0 w Hroom.
  - exists [], (heap w). split; [reflexivity|].
    cbn [for_from malloc_events filter]. rewrite !app_nil_r, world_eta. reflexivity.
  - cbn [for_from].
    destruct (alloc_malloc size (heap w)) as [p h] eqn:Em.
    set (w1 := log (EvMalloc size p) w h).
    set (ptrs1 := if p =? null then ptrs0 else ptrs0 ++ [p]).
    assert (Hstep : bind (malloc size)
                      (fun p => if p =? null then ret ptrs0
                                else push_back (max_size_ptr P) ptrs0 p) w
                    = Returned (ptrs1, w1)).
    { unfold bind, malloc. rewrite Em. unfold ptrs1.
      destruct (p =? null); [reflexivity|]. unfold push_back.
      destruct (Z.leb_spec (max_size_ptr P) (Z.of_nat (List.length ptrs0)));
        [lia | reflexivity]. }
    rewrite (bind_returned _ _ _ _ _ Hstep).
    destruct (IH (i + 1) ptrs1 w1) as (rs & h' & Hlen & Heq).
    { unfold ptrs1. destruct (p =? null); [lia|].
      rewrite length_app. cbn [List.length]. lia. }
    exists (p :: rs), h'. split; [cbn [List.length]; lia|].
    rewrite Heq. cbn [malloc_events w1 log trace clock reads filter].
    unfold ptrs1, non_null. destruct (p =? null); cbn [negb];
      rewrite <- !app_assoc; reflexivity.
Qed.

Lemma filter_non_null_has_no_null (rs : list ptr) :
  ~ In null (filter non_null rs).
Proof. intros Hin. apply filter_In in Hin. destruct Hin as (_ & Hn). discriminate Hn. Qed.

(** X1. [demonstrate_raw_allocation] makes 100 requests of 1024 bytes, keeps
    the pointers that are not null, and frees exactly those, once each and in
    allocation order: it never passes a null pointer to [free], and the block
    count it prints is the number of requests that succeeded. *)
Theorem demonstrate_raw_allocation_frees_what_it_got (w : world H) :
  100 <= max_size_ptr P ->
  exists rs evs n w',
    demonstrate_raw_allocation P w = Returned (n, w') /\
    trace w' = trace w ++ evs /\
    List.length rs = 100%nat /\
    evs = malloc_events (fun _ => 1024) 0 rs ++ map EvFree (filter non_null rs) /\
    allocated evs = rs /\
    freed evs = filter non_null (allocated evs) /\
    ~ In null (freed evs) /\
    n = Z.of_nat (List.length (filter non_null rs)) /\
    0 <= n <= 100.
Proof.
  intros Hmax. unfold demonstrate_raw_allocation.
  assert (Hres : reserve (max_size_ptr P) (@nil ptr) 100 w = Returned ([], w)).
  { unfold reserve. destruct (Z.ltb_spec (max_size_ptr P) 100); [lia | reflexivity]. }
  rewrite (bind_returned _ _ _ _ _ Hres).
  destruct (checked_malloc_loop 1024 100 0 [] w) as (rs & h1 & Hlen & Heq).
  { cbn [List.length]. lia. }
  unfold for_loop. change (Z.to_nat (100 - 0)) with 100%nat.
  rewrite (bind_returned _ _ _ _ _ Heq). cbn [app].
  destruct (free_loop (filter non_null rs)
              (mkWorld h1 (trace w ++ malloc_events (fun _ => 1024) 0 rs)
                       (clock w) (reads w))) as (h2 & Hfree).
  rewrite (bind_returned _ _ _ _ _ Hfree). cbn [trace clock reads].
  exists rs. eexists. do 2 eexists. split; [reflexivity|]. cbn [trace].
  split; [rewrite <- app_assoc; reflexivity|]. split; [exact Hlen|].
  split; [reflexivity|].
  assert (Ha : allocated (malloc_events (fun _ => 1024) 0 rs
                          ++ map EvFree (filter non_null rs)) = rs).
  { rewrite allocated_app, allocated_malloc_events, allocated_frees. apply app_nil_r. }
  assert (Hf : freed (malloc_events (fun _ => 1024) 0 rs
                      ++ map EvFree (filter non_null rs)) = filter non_null rs).
  { rewrite freed_app, freed_malloc_events, freed_frees. reflexivity. }
  rewrite Ha, Hf.
  split; [reflexivity|]. split; [reflexivity|].
  split; [apply filter_non_null_has_no_null|]. split; [reflexivity|].
  pose proof (filter_length_le non_null rs). lia.
Qed.

(** X2. For every [N >= 1] the reallocation workload makes one [malloc(64)],
    then [N - 1] calls of [realloc], the [k]-th (from 0) on the pointer the
    previous call returned and for [64 * (k + 2)] bytes reduced modulo
    [2^64] (no reduction occurs for [N < 2^58]), and then a single [free], of the pointer the last call returned:
    no intermediate pointer is freed, whatever [realloc] answered. *)
Theorem reallocations_chain (N : Z) (w : world H) :
  1 <= N <= SIZE_MAX ->
  exists p qs evs r w',
    benchmark_reallocations P N w = Returned (r, w') /\
    trace w' = trace w ++ evs /\
    List.length qs = Z.to_nat (N - 1) /\
    evs = EvMalloc 64 p :: realloc_events 1 p qs ++ [EvFree (last qs p)] /\
    malloc_calls evs = 1 /\ realloc_calls evs = N - 1 /\
    freed evs = [last qs p] /\
    (forall k q, nth_error qs k = Some q ->
       nth_error evs (Datatypes.S k)
       = Some (EvRealloc (nth k (p :: qs) null)
                         (wrap64 (64 * (Z.of_nat k + 2))) q)) /\
    (N < 2 ^ 58 ->
     forall k, (k < List.length qs)%nat ->
       wrap64 (64 * (Z.of_nat k + 2)) = 64 * (Z.of_nat k + 2)).
Proof.
  intros HN.
  destruct (reallocations_returns P N w) as (p & qs & h' & Hlen & Heq).
  exists p, qs. eexists. do 2 eexists. split; [exact Heq|]. cbn [trace].
  split; [reflexivity|]. split; [exact Hlen|]. split; [reflexivity|].
  destruct (calls_realloc_events qs 1 p) as (Ha & Hf & Hr).
  split; [|split; [|split; [|split]]].
  - change (EvMalloc 64 p :: realloc_events 1 p qs ++ [EvFree (last qs p)])
      with ([EvMalloc 64 p] ++ realloc_events 1 p qs ++ [EvFree (last qs p)]).
    rewrite !malloc_calls_app. unfold malloc_calls at 2. rewrite Ha. reflexivity.
  - change (EvMalloc 64 p :: realloc_events 1 p qs ++ [EvFree (last qs p)])
      with ([EvMalloc 64 p] ++ realloc_events 1 p qs ++ [EvFree (last qs p)]).
    rewrite !realloc_calls_app, Hr, Hlen.
    change (realloc_calls [EvMalloc 64 p]) with 0.
    change (realloc_calls [EvFree (last qs p)]) with 0. lia.
  - change (EvMalloc 64 p :: realloc_events 1 p qs ++ [EvFree (last qs p)])
      with ([EvMalloc 64 p] ++ realloc_events 1 p qs ++ [EvFree (last qs p)]).
    rewrite !freed_app, Hf. reflexivity.
  - intros k q Hk. cbn [nth_error].
    rewrite nth_error_app1
      by (apply nth_error_Some;
          rewrite (nth_error_realloc_events qs 1 p k q Hk); discriminate).
    rewrite (nth_error_realloc_events qs 1 p k q Hk).
    assert (Hkn : (k < List.length qs)%nat)
      by (apply nth_error_Some; rewrite Hk; discriminate).
    replace (wrap64 (1 + Z.of_nat k + 1)) with (Z.of_nat k + 2)
      by (rewrite wrap64_small by lia; lia).
    reflexivity.
  - intros Hsmall k Hk. apply wrap64_small. unfold SIZE_MAX.
    change (2 ^ 58) with 288230376151711744 in Hsmall.
    change (2 ^ 64) with 18446744073709551616. lia.
Qed.

(** X3. The workloads that reserve their vector (small, medium, large and
    mixed allocations, string operations) throw [std::length_error] and
    report nothing when the iteration count exceeds the [max_size()] of that
    vector: whenever one of them returns a result, its count was at most
    [max_size()]. *)
Theorem reserving_workloads_throw_beyond_max_size (id : workload) (N : Z) (w : world H) :
  id <> Reallocations -> id <> Growth ->
  (capacity P id < N -> run_workload P id N w = Thrown length_error) /\
  (forall r w', run_workload P id N w = Returned (r, w') -> N <= capacity P id).
Proof.
  intros Hr Hg.
  assert (Hthrow : capacity P id < N -> run_workload P id N w = Thrown length_error).
  { intros HN. destruct id; cbn [run_workload capacity] in *; try contradiction.
    - exact (pointer_workload_throws P _ _ (fun l => l) N w HN).
    - exact (pointer_workload_throws P _ _ (fun l => l) N w HN).
    - exact (pointer_workload_throws P _ _ (fun l => l) N w HN).
    - exact (pointer_workload_throws P _ _ (@rev ptr) N w HN).
    - exact (string_operations_throws P N w HN). }
  split; [exact Hthrow|].
  intros r w' Hrun.
  destruct (Z_le_gt_dec N (capacity P id)) as [Hfit | Hover]; [exact Hfit|].
  rewrite Hthrow in Hrun by lia. discriminate.
Qed.

End CallClaims.

(** ** Whole runs *)

Section RunExtras.
Context {H : Type} `{Allocator H}.
Variable P : platform.

Lemma workload_calls (id : workload) (N : Z) (w : world H) :
  platform_ok P -> 0 <= N <= capacity P id -> N <= SIZE_MAX ->
  exists evs h',
    run_workload P id N w
    = Returned (mkResult (workload_name id) (measured P (clock w) (reads w))
                         (documented_operations id N),
                mkWorld h' (trace w ++ evs) (clock w) (2 + reads w)) /\
    malloc_calls evs = pointer_calls id N /\
    free_calls evs = pointer_calls id N /\
    realloc_calls evs = resize_calls id N.
Proof.
  intros Hok HN Hsz.
  destruct (platform_ok_facts P Hok) as (_ & Hp & Hs & Hi).
  assert (Hptr : forall (nm : string) (size_of : Z -> Z) (order : list ptr -> list ptr),
             (forall l, List.length (order l) = List.length l) ->
             0 <= N <= max_size_ptr P ->
             exists evs h',
               pointer_workload P nm size_of order N w
               = Returned (mkResult nm (measured P (clock w) (reads w)) (2 * N),
                           mkWorld h' (trace w ++ evs) (clock w) (2 + reads w)) /\
               malloc_calls evs = N /\ free_calls evs = N /\ realloc_calls evs = 0).
  { intros nm size_of order Hord HNp.
    destruct (pointer_workload_returns P nm size_of order N w HNp)
      as (ps & h' & Hlen & Heq).
    rewrite wrap64_small in Heq by (unfold SIZE_MAX in *; lia).
    replace (N * 2) with (2 * N) in Heq by lia.
    do 2 eexists. split; [exact Heq|].
    rewrite malloc_calls_app, free_calls_app, realloc_calls_app.
    rewrite realloc_calls_malloc_events, realloc_calls_frees.
    unfold malloc_calls, free_calls.
    rewrite allocated_malloc_events, allocated_frees, freed_malloc_events, freed_frees.
    rewrite Hord, Hlen. cbn [List.length]. lia. }
  destruct id; cbn [run_workload capacity documented_operations workload_name
                      pointer_calls resize_calls] in *.
  - apply (Hptr _ (fun _ => 64) (fun l => l)); [reflexivity | exact HN].
  - apply (Hptr _ (fun _ => 1024) (fun l => l)); [reflexivity | exact HN].
  - apply (Hptr _ (fun _ => 1024 * 1024) (fun l => l)); [reflexivity | exact HN].
  - apply (Hptr _ (fun i => nth (Z.to_nat (i mod 10)) sizes 0) (@rev ptr));
      [apply length_rev | exact HN].
  - destruct (reallocations_returns P N w) as (p & qs & h' & Hlen & Heq).
    do 2 eexists. split; [exact Heq|].
    destruct (calls_realloc_events qs 1 p) as (Ha & Hf & Hr).
    change (EvMalloc 64 p :: realloc_events 1 p qs ++ [EvFree (last qs p)])
      with ([EvMalloc 64 p] ++ realloc_events 1 p qs ++ [EvFree (last qs p)]).
    rewrite !malloc_calls_app, !free_calls_app, !realloc_calls_app, Hr.
    unfold malloc_calls at 2, free_calls at 2. rewrite Ha, Hf, Hlen.
    change (malloc_calls [EvMalloc 64 p]) with 1.
    change (malloc_calls [EvFree (last qs p)]) with 0.
    change (free_calls [EvMalloc 64 p]) with 0.
    change (free_calls [EvFree (last qs p)]) with 1.
    change (realloc_calls [EvMalloc 64 p]) with 0.
    change (realloc_calls [EvFree (last qs p)]) with 0.
    cbn [List.length]. lia.
  - exists [], (heap w). rewrite app_nil_r.
    rewrite (string_operations_returns P N w HN).
    rewrite wrap64_small by (unfold SIZE_MAX in *; lia).
    replace (N * 3) with (3 * N) by lia. repeat split.
  - exists [], (heap w). rewrite app_nil_r.
    rewrite (container_growth_returns P N w) by lia. repeat split.
Qed.

Lemma run_schedule_calls (sched : list (workload * Z)) :
  forall (acc : list BenchmarkResult) (w : world H),
    platform_ok P -> fits P sched ->
    exists evs h',
      run_schedule P sched acc w
      = Returned (acc ++ scheduled_results P (clock w) (reads w) sched,
                  mkWorld h' (trace w ++ evs) (clock w)
                          (2 * List.length sched + reads w)) /\
      malloc_calls evs = sum_over pointer_calls sched /\
      free_calls evs = sum_over pointer_calls sched /\
      realloc_calls evs = sum_over resize_calls sched.
Proof.
  induction sched as [| [id n] rest IH]; intros acc w Hok Hfits.
  - exists [], (heap w). cbn [run_schedule scheduled_results List.length].
    rewrite !app_nil_r. cbn [Nat.mul Nat.add]. rewrite world_eta. repeat split.
  - inversion Hfits as [| ? ? (Hn & Hsz) Hrest]; subst. cbn [fst snd] in *.
    destruct (workload_calls id n w Hok Hn Hsz) as (e1 & h1 & Heq & Hm & Hf & Hr).
    cbn [run_schedule]. rewrite (bind_returned _ _ _ _ _ Heq).
    destruct (IH (acc ++ [mkResult (workload_name id) (measured P (clock w) (reads w))
                                    (documented_operations id n)])
                 (mkWorld h1 (trace w ++ e1) (clock w) (2 + reads w)) Hok Hrest)
      as (e2 & h2 & Heq2 & Hm2 & Hf2 & Hr2).
    cbn [trace clock reads] in Heq2.
    exists (e1 ++ e2), h2. rewrite Heq2. cbn [scheduled_results sum_over fold_right fst snd].
    rewrite malloc_calls_app, free_calls_app, realloc_calls_app.
    rewrite <- !app_assoc. cbn [app List.length].
    replace (2 * Datatypes.S (List.length rest) + reads w)%nat
      with (2 * List.length rest + (2 + reads w))%nat by lia.
    fold (sum_over pointer_calls rest). fold (sum_over resize_calls rest).
    repeat split; lia.
Qed.

Lemma run_benchmark_with_as_schedule (N : Z) (w : world H) :
  run_benchmark_with P N w
  = bind (run_schedule P (default_schedule N) [])
         (fun rs => ret (report_of N rs)) w.
Proof.
  unfold run_benchmark_with, default_schedule.
  cbn [run_schedule run_workload app]. unfold bind.
  repeat match goal with
         | |- context [match ?m ?n ?w0 with Returned _ => _ | Thrown _ => _ end] =>
             destruct (m n w0) as [[? ?] | ?]; try reflexivity
         end.
Qed.

Lemma default_schedule_fits (N : Z) :
  platform_ok P ->
  0 <= N -> N <= max_size_ptr P -> N <= max_size_string P -> N <= max_size_int P ->
  fits P (default_schedule N).
Proof.
  intros Hok Hnat Hp Hs Hi.
  destruct (platform_ok_facts P Hok) as (_ & (_ & Hp8) & _).
  assert (Hdiv : 0 <= N / 10 <= N)
    by (split; [apply Z.div_pos; lia | apply Z.div_le_upper_bound; lia]).
  unfold fits, default_schedule.
  repeat constructor; cbn [fst snd capacity]; lia.
Qed.

(** The default run at any count that fits: its report, and the calls it
    makes. *)
Lemma run_benchmark_with_report (N : Z) (w : world H) :
  platform_ok P ->
  0 <= N -> N <= max_size_ptr P -> N <= max_size_string P -> N <= max_size_int P ->
  exists evs h',
    run_benchmark_with P N w
    = Returned (report_of N (scheduled_results P (clock w) (reads w)
                                               (default_schedule N)),
                mkWorld h' (trace w ++ evs) (clock w) (14 + reads w)) /\
    malloc_calls evs = 3 * N + N / 10 + 1 /\
    free_calls evs = 3 * N + N / 10 + 1 /\
    realloc_calls evs = Z.max 0 (N - 1).
Proof.
  intros Hok Hnat Hp Hs Hi.
  pose proof (default_schedule_fits N Hok Hnat Hp Hs Hi) as Hfits.
  destruct (run_schedule_calls (default_schedule N) [] w Hok Hfits)
    as (evs & h' & Heq & Hm & Hf & Hr).
  exists evs, h'. rewrite run_benchmark_with_as_schedule.
  rewrite (bind_returned _ _ _ _ _ Heq). split; [reflexivity|].
  rewrite Hm, Hf, Hr.
  cbn [default_schedule sum_over fold_right fst snd pointer_calls resize_calls].
  repeat split; lia.
Qed.

Lemma measured_nonneg (c : nat -> Z) (n : nat) :
  platform_ok P -> monotonic c -> has_sign false (measured P c n).
Proof.
  intros Hok Hmono. destruct (platform_ok_facts P Hok) as (Htpu & _).
  unfold measured, ms_of_us, duration_cast_us.
  apply div_thousand_nonneg, of_Z_nonneg.
  pose proof (Hmono n). rewrite Z.quot_div_nonneg by lia.
  apply Z.div_pos; lia.
Qed.

(** X6. For every allocator, every clock that does not run backwards and
    every iteration count [N >= 10] that fits, the run reports
    [total_ops = 11 N + 2 (N / 10)] (112000 for the default 10000), a total
    time that is the sum of the seven durations and is not negative, and an
    average and seven [ops_per_second] values that are never NaN and never
    negative (they are infinite when the time they divide by is zero). *)
Theorem run_totals_are_numbers (N : Z) (w : world H) :
  platform_ok P -> monotonic (clock w) ->
  10 <= N -> N <= max_size_ptr P -> N <= max_size_string P -> N <= max_size_int P ->
  exists rep w',
    run_benchmark_with P N w = Returned (rep, w') /\
    total_ops rep = 11 * N + 2 * (N / 10) /\
    total_time rep = sum_durations (results rep) /\
    has_sign false (total_time rep) /\
    printed_average rep = average (total_ops rep) (total_time rep) /\
    has_sign false (printed_average rep) /\
    Forall (fun line => has_sign false (row_ops_per_second line)) (rows rep).
Proof.
  intros Hok Hmono HN Hp Hs Hi.
  destruct (platform_ok_facts P Hok) as (_ & _ & (_ & Hs24) & _).
  destruct (run_benchmark_with_report N w Hok) as (evs & h' & Heq & _); try lia.
  do 2 eexists. split; [exact Heq|].
  assert (Hdiv : 1 <= N / 10 <= N)
    by (split; [apply Z.div_le_lower_bound; lia | apply Z.div_le_upper_bound; lia]).
  pose proof (measured_nonneg (clock w)) as Hnn.
  set (rs := scheduled_results P (clock w) (reads w) (default_schedule N)).
  assert (Hsum : sum_operations rs = 11 * N + 2 * (N / 10)).
  { unfold rs, sum_operations.
    cbn [default_schedule scheduled_results map operations documented_operations
         fold_left]. lia. }
  assert (Hdur : Forall (fun r => has_sign false (duration_ms r)) rs).
  { unfold rs. cbn [default_schedule scheduled_results].
    repeat constructor; cbn [duration_ms]; apply Hnn; assumption. }
  assert (Htot : totals rs = (sum_durations rs, 11 * N + 2 * (N / 10))).
  { rewrite (surjective_pairing (totals rs)), reporter_totals_fst, totals_snd, Hsum.
    rewrite wrap64_small by (unfold SIZE_MAX in *; lia). reflexivity. }
  unfold report_of. fold rs. rewrite Htot.
  cbn [total_ops total_time printed_average results rows fst snd].
  split; [reflexivity|]. split; [reflexivity|].
  split; [apply sum_durations_nonneg; exact Hdur|].
  split; [reflexivity|].
  split.
  - apply throughput_nonneg; [unfold SIZE_MAX in *; lia|].
    apply sum_durations_nonneg; exact Hdur.
  - unfold rs. cbn [default_schedule scheduled_results map print_result
                      documented_operations].
    repeat (apply Forall_cons; [unfold print_result, ops_per_second;
      cbn [row_ops_per_second];
      cbn [operations duration_ms];
      (apply throughput_nonneg; [unfold SIZE_MAX in *; lia | apply Hnn; assumption])|]).
    apply Forall_nil.
Qed.

(** X9. For every allocator and every iteration count [N] that fits, the run
    makes exactly [3 N + N / 10 + 1] calls of [malloc], as many calls of
    [free], and [N - 1] calls of [realloc] (none for [N = 0]), whatever the
    allocator answers: 31001, 31001 and 9999 for the default 10000. *)
Theorem run_allocator_calls (N : Z) (w : world H) :
  platform_ok P ->
  0 <= N -> N <= max_size_ptr P -> N <= max_size_string P -> N <= max_size_int P ->
  exists evs rep w',
    run_benchmark_with P N w = Returned (rep, w') /\
    trace w' = trace w ++ evs /\
    malloc_calls evs = 3 * N + N / 10 + 1 /\
    free_calls evs = malloc_calls evs /\
    realloc_calls evs = Z.max 0 (N - 1).
Proof.
  intros Hok Hnat Hp Hs Hi.
  destruct (run_benchmark_with_report N w Hok Hnat Hp Hs Hi)
    as (evs & h' & Heq & Hm & Hf & Hr).
  exists evs. do 2 eexists. split; [exact Heq|]. cbn [trace].
  repeat split; try assumption. lia.
Qed.

(** X10. The run reads the clock exactly fourteen times and leaves it
    otherwise alone: the [k]-th of its seven results carries the duration
    between the readings [2k] and [2k + 1], truncated to whole microseconds,
    so the time that passes between two workloads is in no duration. *)
Theorem run_times_each_workload_alone (N : Z) (w : world H) :
  platform_ok P ->
  0 <= N -> N <= max_size_ptr P -> N <= max_size_string P -> N <= max_size_int P ->
  exists rep w',
    run_benchmark_with P N w = Returned (rep, w') /\
    reads w' = (14 + reads w)%nat /\
    clock w' = clock w /\
    List.length (results rep) = 7%nat /\
    (forall k r,
       nth_error (results rep) k = Some r ->
       duration_ms r
       = ms_of_us (duration_cast_us P
           (clock w (2 * k + 1 + reads w)%nat - clock w (2 * k + reads w)%nat))).
Proof.
  intros Hok Hnat Hp Hs Hi.
  destruct (run_benchmark_with_report N w Hok Hnat Hp Hs Hi)
    as (evs & h' & Heq & _).
  do 2 eexists. split; [exact Heq|]. cbn [reads clock].
  split; [reflexivity|]. split; [reflexivity|]. split; [reflexivity|].
  intros k r Hk. unfold report_of in Hk. cbn [results] in Hk.
  cbn [default_schedule scheduled_results] in Hk.
  do 7 (destruct k as [| k]; [injection Hk as <-; reflexivity|]).
  destruct k; discriminate Hk.
Qed.

End RunExtras.

(** ** Blocks obtained and given back *)

Lemma tally_app (f : event -> Z) (xs ys : list event) :
  tally f (xs ++ ys) = tally f xs + tally f ys.
Proof.
  induction xs as [| x xs IH]; [reflexivity|].
  cbn [app]. unfold tally in *. cbn [fold_right]. rewrite IH. lia.
Qed.

Lemma tally_single (f : event -> Z) (e : event) : tally f [e] = f e.
Proof. unfold tally. cbn [fold_right]. lia. Qed.

Lemma blocks_malloc_events (size_of : Z -> Z) (ps : list ptr) :
  forall i0,
    obtained (malloc_events size_of i0 ps) = tally (fun e => match e with
                                                           | EvFree p => live p
                                                           | _ => 0
                                                           end) (map EvFree ps) /\
    released (malloc_events size_of i0 ps) = 0 /\
    failed_resizes (malloc_events size_of i0 ps) = 0.
Proof.
  induction ps as [| p ps IH]; intros i0; [repeat split|].
  destruct (IH (i0 + 1)) as (Ho & Hr & Hf).
  unfold obtained, released, failed_resizes, tally in *.
  cbn [malloc_events map fold_right]. rewrite Ho, Hr, Hf. repeat split; lia.
Qed.

Lemma blocks_frees (ps : list ptr) :
  obtained (map EvFree ps) = 0 /\
  released (map EvFree ps) = tally (fun e => match e with
                                             | EvFree p => live p
                                             | _ => 0
                                             end) (map EvFree ps) /\
  failed_resizes (map EvFree ps) = 0.
Proof.
  induction ps as [| p ps (Ho & Hr & Hf)]; [repeat split|].
  unfold obtained, released, failed_resizes, tally in *.
  cbn [map fold_right]. rewrite Ho, Hr, Hf. repeat split; lia.
Qed.

Lemma tally_frees_rev (ps : list ptr) :
  tally (fun e => match e with EvFree p => live p | _ => 0 end) (map EvFree (rev ps))
  = tally (fun e => match e with EvFree p => live p | _ => 0 end) (map EvFree ps).
Proof.
  induction ps as [| p ps IH]; [reflexivity|].
  cbn [rev]. rewrite map_app, tally_app, IH.
  unfold tally. cbn [map fold_right]. lia.
Qed.

(** Along a chain of resize steps, the blocks obtained less those given back
    and those lost change with the pointer held. *)
Lemma blocks_realloc_events (qs : list ptr) :
  forall lo p,
    obtained (realloc_events lo p qs) - released (realloc_events lo p qs)
      - failed_resizes (realloc_events lo p qs)
    = live (last qs p) - live p.
Proof.
  induction qs as [| q qs IH]; intros lo p.
  - cbn. lia.
  - specialize (IH (lo + 1) q). rewrite last_cons.
    unfold obtained, released, failed_resizes, tally in *.
    cbn [realloc_events fold_right]. nia.
Qed.

Section BlockClaims.
Context {H : Type} `{Allocator H}.
Variable P : platform.

(** X11. Whatever the allocator answers, every workload gives back each
    block it obtains, except that the reallocation workload never frees a
    block whose resize failed: the blocks it obtains exceed those it gives
    back by exactly the number of failed resizes of an allocated block. *)
Theorem workloads_give_back_their_blocks (id : workload) (N : Z) (w : world H) :
  platform_ok P -> 0 <= N <= capacity P id -> N <= SIZE_MAX ->
  exists evs r w',
    run_workload P id N w = Returned (r, w') /\
    trace w' = trace w ++ evs /\
    obtained evs - released evs = failed_resizes evs /\
    (id <> Reallocations -> failed_resizes evs = 0) /\
    (failed_resizes evs = 0 -> obtained evs = released evs).
Proof.
  intros Hok HN Hsz.
  assert (Hptr : forall (nm : string) (size_of : Z -> Z) (order : list ptr -> list ptr),
             (forall l, order l = l \/ order l = rev l) ->
             0 <= N <= max_size_ptr P ->
             exists evs r w',
               pointer_workload P nm size_of order N w = Returned (r, w') /\
               trace w' = trace w ++ evs /\
               obtained evs - released evs = failed_resizes evs /\
               failed_resizes evs = 0).
  { intros nm size_of order Hord HNp.
    destruct (pointer_workload_returns P nm size_of order N w HNp)
      as (ps & h' & Hlen & Heq).
    do 3 eexists. split; [exact Heq|]. cbn [trace]. split; [reflexivity|].
    destruct (blocks_malloc_events size_of ps 0) as (Ho & Hr & Hf).
    destruct (blocks_frees (order ps)) as (Ho' & Hr' & Hf').
    unfold obtained, released, failed_resizes in *.
    rewrite !tally_app, Ho, Hr, Hf, Ho', Hr', Hf'.
    destruct (Hord ps) as [-> | ->]; [|rewrite tally_frees_rev]; lia. }
  destruct id; cbn [run_workload capacity] in *.
  - destruct (Hptr "Small allocations (64 bytes)"%string (fun _ => 64) (fun l => l))
      as (evs & r & w' & Hrun & Htr & Hbal & Hf); [left; reflexivity | exact HN|].
    exists evs, r, w'. repeat split; try assumption; lia.
  - destruct (Hptr "Medium allocations (1KB)"%string (fun _ => 1024) (fun l => l))
      as (evs & r & w' & Hrun & Htr & Hbal & Hf); [left; reflexivity | exact HN|].
    exists evs, r, w'. repeat split; try assumption; lia.
  - destruct (Hptr "Large allocations (1MB)"%string (fun _ => 1024 * 1024) (fun l => l))
      as (evs & r & w' & Hrun & Htr & Hbal & Hf); [left; reflexivity | exact HN|].
    exists evs, r, w'. repeat split; try assumption; lia.
  - destruct (Hptr "Mixed size allocations"%string
                (fun i => nth (Z.to_nat (i mod 10)) sizes 0) (@rev ptr))
      as (evs & r & w' & Hrun & Htr & Hbal & Hf); [right; reflexivity | exact HN|].
    exists evs, r, w'. repeat split; try assumption; lia.
  - destruct (reallocations_returns P N w) as (p & qs & h' & Hlen & Heq).
    do 3 eexists. split; [exact Heq|]. cbn [trace]. split; [reflexivity|].
    pose proof (blocks_realloc_events qs 1 p) as Hchain.
    change (EvMalloc 64 p :: realloc_events 1 p qs ++ [EvFree (last qs p)])
      with ([EvMalloc 64 p] ++ realloc_events 1 p qs ++ [EvFree (last qs p)]).
    unfold obtained, released, failed_resizes in *.
    rewrite !tally_app, !tally_single. cbn beta iota.
    split; [lia|]. split; [intros Hne; contradiction|]. lia.
  - exists [], (mkResult "String operations" (measured P (clock w) (reads w))
                         (wrap64 (N * 3))),
      (mkWorld (heap w) (trace w) (clock w) (Datatypes.S (Datatypes.S (reads w)))).
    rewrite (string_operations_returns P N w HN). rewrite app_nil_r. repeat split.
  - destruct (platform_ok_facts P Hok) as (_ & _ & _ & Hi).
    exists [], (mkResult "Vector growth" (measured P (clock w) (reads w)) N),
      (mkWorld (heap w) (trace w) (clock w) (Datatypes.S (Datatypes.S (reads w)))).
    rewrite (container_growth_returns P N w) by lia. rewrite app_nil_r. repeat split.
Qed.

End BlockClaims.

(** ** The size table *)

Lemma table_lookup_in_table (i : Z) :
  In (nth (Z.to_nat (i mod 10)) sizes 0) sizes.
Proof.
  apply nth_In. change (List.length sizes) with 10%nat.
  pose proof (Z.mod_pos_bound i 10). lia.
Qed.

Lemma malloc_events_sizes (size_of : Z -> Z) (Q : Z -> Prop) (ps : list ptr) :
  (forall i, Q (size_of i)) ->
  forall i0,
    Forall (fun e => match e with EvMalloc s _ => Q s | _ => True end)
           (malloc_events size_of i0 ps).
Proof.
  intros HQ. induction ps as [| p ps IH]; intros i0; cbn [malloc_events].
  - constructor.
  - constructor; [apply HQ | apply IH].
Qed.

Section TableClaims.
Context {H : Type} `{Allocator H}.
Variable P : platform.

(** X12. The mixed-sizes workload never reads outside its table: for every
    iteration count, each of its requests is for one of the ten sizes of the
    table, so for at least 16 and at most 8192 bytes. *)
Theorem mixed_sizes_stay_in_table (N : Z) (w : world H) :
  0 <= N <= max_size_ptr P ->
  exists evs r w',
    benchmark_mixed_sizes P N w = Returned (r, w') /\
    trace w' = trace w ++ evs /\
    Forall (fun e => match e with
                     | EvMalloc s _ => In s sizes /\ 16 <= s <= 8192
                     | _ => True
                     end) evs.
Proof.
  intros HN.
  destruct (pointer_workload_returns P "Mixed size allocations"
              (fun i => nth (Z.to_nat (i mod 10)) sizes 0) (@rev ptr) N w HN)
    as (ps & h' & Hlen & Heq).
  do 3 eexists. split; [exact Heq|]. cbn [trace]. split; [reflexivity|].
  apply Forall_app. split.
  - apply (malloc_events_sizes _ (fun s => In s sizes /\ 16 <= s <= 8192)).
    intros i. pose proof (table_lookup_in_table i) as Hin.
    split; [exact Hin|].
    cbn [sizes In] in Hin.
    repeat (destruct Hin as [<- | Hin]; [lia|]). contradiction.
  - apply Forall_forall. intros e He. apply in_map_iff in He.
    destruct He as (p & <- & _). exact I.
Qed.

End TableClaims.

(** ** The further properties on concrete runs *)

Lemma demonstrate_raw_allocation_frees_what_it_got_witness :
  100 <= max_size_ptr libstdcxx_lp64 /\
  exists n w',
    demonstrate_raw_allocation libstdcxx_lp64 (test_world 3000) = Returned (n, w') /\
    0 <= n <= 100.
Proof.
  assert (Hmax : 100 <= max_size_ptr libstdcxx_lp64) by (cbn; lia).
  split; [exact Hmax|].
  destruct (demonstrate_raw_allocation_frees_what_it_got
              libstdcxx_lp64 (test_world 3000) Hmax)
    as (rs & evs & n & w' & Hrun & _ & _ & _ & _ & _ & _ & _ & Hn).
  exists n, w'. split; assumption.
Defined.

Lemma reallocations_chain_witness :
  1 <= 3 <= SIZE_MAX /\
  exists evs r w',
    benchmark_reallocations libstdcxx_lp64 3 (test_world 1000) = Returned (r, w') /\
    trace w' = trace (test_world 1000) ++ evs /\
    realloc_calls evs = 3 - 1.
Proof.
  assert (HN : 1 <= 3 <= SIZE_MAX) by (unfold SIZE_MAX; lia).
  split; [exact HN|].
  destruct (reallocations_chain libstdcxx_lp64 3 (test_world 1000) HN)
    as (p & qs & evs & r & w' & Hrun & Htr & _ & _ & _ & Hr & _).
  exists evs, r, w'. repeat split; assumption.
Defined.

Lemma reserving_workloads_throw_beyond_max_size_witness :
  Strings <> Reallocations /\ Strings <> Growth /\
  capacity (mkPlatform 1000 5 5 5) Strings < 6 /\
  run_workload (mkPlatform 1000 5 5 5) Strings 6 (test_world 0) = Thrown length_error.
Proof.
  assert (Hr : Strings <> Reallocations) by discriminate.
  assert (Hg : Strings <> Growth) by discriminate.
  assert (Hover : capacity (mkPlatform 1000 5 5 5) Strings < 6) by (cbn; lia).
  split; [exact Hr|]. split; [exact Hg|]. split; [exact Hover|].
  exact (proj1 (reserving_workloads_throw_beyond_max_size (mkPlatform 1000 5 5 5)
                  Strings 6 (test_world 0) Hr Hg) Hover).
Defined.

Lemma ops_per_second_nan_iff_witness :
  is_size_t (operations idle_result) /\
  (operations idle_result = 0 /\ is_zero (duration_ms idle_result) = true) /\
  is_nan (ops_per_second idle_result) = true.
Proof.
  assert (Hops : is_size_t (operations idle_result))
    by (unfold is_size_t, SIZE_MAX; cbn; lia).
  assert (Hcase : operations idle_result = 0 /\ is_zero (duration_ms idle_result) = true)
    by (split; reflexivity).
  split; [exact Hops|]. split; [exact Hcase|].
  destruct (ops_per_second_nan_iff idle_result Hops) as ((_ & Hback) & _).
  apply Hback. right. exact Hcase.
Defined.

Lemma total_ops_order_independent_witness :
  Permutation [instant_result; huge_result] [huge_result; instant_result] /\
  snd (totals [instant_result; huge_result])
  = snd (totals [huge_result; instant_result]) /\
  snd (totals ([huge_result] ++ [huge_result; idle_result]))
  = wrap64 (snd (totals [huge_result]) + snd (totals [huge_result; idle_result])).
Proof.
  assert (Hperm : Permutation [instant_result; huge_result]
                              [huge_result; instant_result]) by apply perm_swap.
  split; [exact Hperm|]. split.
  - exact (proj1 (total_ops_order_independent _ _) Hperm).
  - exact (proj2 (total_ops_order_independent [huge_result]
                    [huge_result; idle_result])).
Defined.

Lemma run_totals_are_numbers_witness :
  platform_ok libstdcxx_lp64 /\ monotonic (clock (test_world 0)) /\
  10 <= 10000 /\ 10000 <= max_size_ptr libstdcxx_lp64 /\
  10000 <= max_size_string libstdcxx_lp64 /\ 10000 <= max_size_int libstdcxx_lp64 /\
  exists rep w',
    run_benchmark_with libstdcxx_lp64 10000 (test_world 0) = Returned (rep, w') /\
    total_ops rep = 112000 /\
    has_sign false (printed_average rep).
Proof.
  assert (Hok : platform_ok libstdcxx_lp64) by reflexivity.
  destruct libstdcxx_lp64_holds_default_run as (Hp & Hs & Hi).
  assert (H10 : 10 <= 10000) by lia.
  split; [exact Hok|]. split; [exact (test_clock_monotonic 0)|].
  split; [exact H10|]. split; [exact Hp|]. split; [exact Hs|]. split; [exact Hi|].
  destruct (run_totals_are_numbers libstdcxx_lp64 10000 (test_world 0) Hok
              (test_clock_monotonic 0) H10 Hp Hs Hi)
    as (rep & w' & Hrun & Hops & _ & _ & _ & Havg & _).
  exists rep, w'. split; [exact Hrun|]. split; [exact Hops | exact Havg].
Defined.

Lemma elapsed_ms_backwards_clock_witness :
  platform_ok libstdcxx_lp64 /\
  clock (test_world 0) (reads (test_world 0)) < start_ (mkTimer 5000) /\
  exists us,
    elapsed_ms libstdcxx_lp64 (mkTimer 5000) (test_world 0)
    = Returned (Double.div (Double.of_Z us) Double.thousand,
                mkWorld (heap (test_world 0)) (trace (test_world 0))
                        (clock (test_world 0)) 1) /\
    us <= 0.
Proof.
  assert (Hok : platform_ok libstdcxx_lp64) by reflexivity.
  assert (Hback : clock (test_world 0) (reads (test_world 0)) < start_ (mkTimer 5000))
    by (cbn; lia).
  split; [exact Hok|]. split; [exact Hback|].
  destruct (elapsed_ms_backwards_clock libstdcxx_lp64 (mkTimer 5000) (test_world 0)
              Hok Hback) as (us & Hrun & Hus & _).
  exists us. split; assumption.
Defined.

Lemma get_greeting_injective_witness :
  get_greeting "World" = get_greeting "World" /\ "World"%string = "World"%string /\
  get_greeting "World" = "Hello, World!"%string.
Proof.
  assert (Heq : get_greeting "World" = get_greeting "World") by reflexivity.
  destruct (get_greeting_injective "World" "World")
    as (Hval & _ & _ & _ & _ & _ & Hinj).
  split; [exact Heq|]. split; [exact (Hinj Heq) | exact Hval].
Defined.

Lemma run_allocator_calls_witness :
  platform_ok libstdcxx_lp64 /\ 0 <= 10000 /\
  10000 <= max_size_ptr libstdcxx_lp64 /\
  10000 <= max_size_string libstdcxx_lp64 /\ 10000 <= max_size_int libstdcxx_lp64 /\
  exists evs rep w',
    run_benchmark_with libstdcxx_lp64 10000 (test_world 0) = Returned (rep, w') /\
    trace w' = trace (test_world 0) ++ evs /\
    malloc_calls evs = 31001 /\ free_calls evs = 31001 /\ realloc_calls evs = 9999.
Proof.
  assert (Hok : platform_ok libstdcxx_lp64) by reflexivity.
  destruct libstdcxx_lp64_holds_default_run as (Hp & Hs & Hi).
  assert (H0 : 0 <= 10000) by lia.
  split; [exact Hok|]. split; [exact H0|].
  split; [exact Hp|]. split; [exact Hs|]. split; [exact Hi|].
  destruct (run_allocator_calls libstdcxx_lp64 10000 (test_world 0) Hok H0 Hp Hs Hi)
    as (evs & rep & w' & Hrun & Htr & Hm & Hf & Hr).
  exists evs, rep, w'. split; [exact Hrun|]. split; [exact Htr|].
  split; [exact Hm|]. split; [rewrite Hf; exact Hm | exact Hr].
Defined.

Lemma run_times_each_workload_alone_witness :
  platform_ok libstdcxx_lp64 /\ 0 <= 10000 /\
  10000 <= max_size_ptr libstdcxx_lp64 /\
  10000 <= max_size_string libstdcxx_lp64 /\ 10000 <= max_size_int libstdcxx_lp64 /\
  exists rep w',
    run_benchmark_with libstdcxx_lp64 10000 (test_world 0) = Returned (rep, w') /\
    reads w' = 14%nat.
Proof.
  assert (Hok : platform_ok libstdcxx_lp64) by reflexivity.
  destruct libstdcxx_lp64_holds_default_run as (Hp & Hs & Hi).
  assert (H0 : 0 <= 10000) by lia.
  split; [exact Hok|]. split; [exact H0|].
  split; [exact Hp|]. split; [exact Hs|]. split; [exact Hi|].
  destruct (run_times_each_workload_alone libstdcxx_lp64 10000 (test_world 0)
              Hok H0 Hp Hs Hi) as (rep & w' & Hrun & Hreads & _).
  exists rep, w'. split; assumption.
Defined.

Lemma workloads_give_back_their_blocks_witness :
  platform_ok libstdcxx_lp64 /\
  0 <= 3 <= capacity libstdcxx_lp64 Reallocations /\ 3 <= SIZE_MAX /\
  exists evs r w',
    run_workload libstdcxx_lp64 Reallocations 3 (test_world 100) = Returned (r, w') /\
    trace w' = trace (test_world 100) ++ evs /\
    obtained evs - released evs = failed_resizes evs.
Proof.
  assert (Hok : platform_ok libstdcxx_lp64) by reflexivity.
  assert (Hfit : 0 <= 3 <= capacity libstdcxx_lp64 Reallocations)
    by (cbn; unfold SIZE_MAX; lia).
  assert (Hsz : 3 <= SIZE_MAX) by (unfold SIZE_MAX; lia).
  split; [exact Hok|]. split; [exact Hfit|]. split; [exact Hsz|].
  destruct (workloads_give_back_their_blocks libstdcxx_lp64 Reallocations 3
              (test_world 100) Hok Hfit Hsz)
    as (evs & r & w' & Hrun & Htr & Hbal & _).
  exists evs, r, w'. repeat split; assumption.
Defined.

Lemma mixed_sizes_stay_in_table_witness :
  0 <= 25 <= max_size_ptr libstdcxx_lp64 /\
  exists evs r w',
    benchmark_mixed_sizes libstdcxx_lp64 25 (test_world 100000) = Returned (r, w') /\
    trace w' = trace (test_world 100000) ++ evs.
Proof.
  assert (Hfit : 0 <= 25 <= max_size_ptr libstdcxx_lp64) by (cbn; lia).
  split; [exact Hfit|].
  destruct (mixed_sizes_stay_in_table libstdcxx_lp64 25 (test_world 100000) Hfit)
    as (evs & r & w' & Hrun & Htr & _).
  exists evs, r, w'. split; assumption.
Defined.
